(** * elements-imaging: [ScanInfo.make] of [elements_imaging/scan.py]

    A shallow embedding of the one imported table of the scan element,
    [ScanInfo], with its part tables [ScanInfo.Field] and
    [ScanInfo.ScanFile], and of the [make] method that fills them from a
    ScanImage file set.

    Python values are modelled as follows.
    - [int] is [Z]; [float] is the kernel's binary64 [float], so that
      [+] and [*] are the IEEE operations Python performs;
    - a [str] is a [string]; a list is a [list], indexed with a
      non-negative index by [nth_error], an index past the end raising
      [IndexError];
    - an exception is a value of [exn]; a computation that may raise has
      type [outcome A];
    - the three tables are lists of rows, [insert] appending to them, and
      [make] passes the database along explicitly, so that the rows already
      inserted when an exception escapes are visible in the result. *)

From Stdlib Require Import ZArith QArith Qabs Qpower List FinFun Bool Ascii String.
From Stdlib Require Import Floats Lia.
Import ListNotations.

Local Open Scope Z_scope.

(* Decimal literals are read as Python reads them: to the nearest binary64. *)
Set Warnings "-inexact-float".

(** ** Exceptions *)

Inductive exn : Type :=
| IndexError
    (* a list subscript past the end *)
| UnpackError (expected got : nat)
    (* ValueError of [x, y, z = seq] when [len(seq) <> 3] *)
| NotRelativeError (path root : string)
    (* ValueError of [PurePath.relative_to] *)
| ReadError (msg : string).
    (* whatever [scanreader.read_scan] raises *)

Inductive outcome (A : Type) : Type :=
| Return (a : A)
| Raise (e : exn).

Arguments Return {A} a.
Arguments Raise {A} e.

Definition bind {A B : Type} (m : outcome A) (k : A -> outcome B) : outcome B :=
  match m with
  | Return a => k a
  | Raise e => Raise e
  end.

Declare Scope py_scope.
Delimit Scope py_scope with py.

Notation "x <- m ;; k" := (bind m (fun x => k))
  (at level 61, m at next level, right associativity) : py_scope.

(** [[f(x) for x in xs]]: the elements are computed left to right and the
    first exception ends the comprehension, no list being produced. *)
Fixpoint comprehension {A B : Type} (f : A -> outcome B) (xs : list A)
  : outcome (list B) :=
  match xs with
  | [] => Return []
  | x :: xs' =>
      (y <- f x ;;
       ys <- comprehension f xs' ;;
       Return (y :: ys))%py
  end.

(** [range(n)]: empty when [n <= 0]. *)
Definition range (n : Z) : list Z :=
  map Z.of_nat (seq 0 (Z.to_nat n)).

(** [xs[i]] for [i] taken from a [range], hence never negative. *)
Definition subscript {A : Type} (xs : list A) (i : Z) : outcome A :=
  match nth_error xs (Z.to_nat i) with
  | Some a => Return a
  | None => Raise IndexError
  end.

(** ** [pathlib] on a POSIX system

    [pathlib.Path(s)] keeps a root (empty, one slash, or two slashes when
    the string starts with exactly two) and the names between the slashes,
    empty names and [.] being dropped. *)

Module Pathlib.

Local Open Scope string_scope.

Definition sep : ascii := "/"%char.

Record PurePath : Type := mkPath {
  root : string;
  names : list string
}.

(** [s.split('/')] *)
Fixpoint split (s : string) : list string :=
  match s with
  | EmptyString => [EmptyString]
  | String c s' =>
      if Ascii.eqb c sep then EmptyString :: split s'
      else match split s' with
           | [] => [String c EmptyString]
           | w :: ws => String c w :: ws
           end
  end.

(** [s.lstrip('/')], with the number of slashes removed *)
Fixpoint lstrip (s : string) : nat * string :=
  match s with
  | String c s' =>
      if Ascii.eqb c sep then let '(n, r) := lstrip s' in (S n, r)
      else (O, s)
  | EmptyString => (O, s)
  end.

(** [_PosixFlavour.splitroot] *)
Definition splitroot (part : string) : string * string :=
  match part with
  | String c _ =>
      if Ascii.eqb c sep then
        let '(n, stripped) := lstrip part in
        if Nat.eqb n 2 then ("//", stripped) else ("/", stripped)
      else ("", part)
  | EmptyString => ("", part)
  end.

Definition is_name (x : string) : bool :=
  negb (String.eqb x "") && negb (String.eqb x ".").

(** [sep not in s] *)
Fixpoint no_sep (s : string) : bool :=
  match s with
  | EmptyString => true
  | String c s' => negb (Ascii.eqb c sep) && no_sep s'
  end.

(** The names that a parsed path can hold. *)
Definition names_ok (ns : list string) : Prop :=
  Forall (fun w => is_name w = true /\ no_sep w = true) ns.

(** [Path(s)] for one string argument *)
Definition Path (s : string) : PurePath :=
  let '(r, rel) := splitroot s in
  mkPath r (filter is_name (split rel)).

(** ['/'.join(xs)] *)
Fixpoint join (xs : list string) : string :=
  match xs with
  | [] => ""
  | [x] => x
  | x :: xs' => x ++ String sep (join xs')
  end.

(** [str(p)], which is also [p.as_posix()] on POSIX *)
Definition as_posix (p : PurePath) : string :=
  match root p, names p with
  | "", [] => "."
  | r, ns => r ++ join ns
  end.

Definition string_list_eqb (xs ys : list string) : bool :=
  if list_eq_dec String.string_dec xs ys then true else false.

(** [_format_parsed_parts]: the text of a path in an error message, empty
    for the empty path. *)
Definition format_parsed_parts (p : PurePath) : string :=
  root p ++ join (names p).

(** [p.relative_to(other)]: the root and names of [other] must be a prefix
    of those of [p], as they are written; the result is the relative path
    of the names left. No [..] is resolved and no link is followed. *)
Definition relative_to (p other : PurePath) : outcome PurePath :=
  let n := List.length (names other) in
  if String.eqb (root p) (root other)
     && string_list_eqb (firstn n (names p)) (names other)
  then Return (mkPath "" (skipn n (names p)))
  else Raise (NotRelativeError (as_posix p) (format_parsed_parts other)).

(** [p / s] for a string [s] *)
Definition joinpath (p : PurePath) (s : string) : PurePath :=
  let q := Path s in
  match root q with
  | "" => mkPath (root p) (names p ++ names q)
  | _ => q
  end.

End Pathlib.

(** ** The scan object of [scanreader]

    [scanreader.read_scan] is an external collaborator: the record holds
    the attributes that [make] reads, with the values the reader reports.
    The two attributes read through [getattr(scan, name, None)] are
    optional; [_degrees_to_microns] is the reader's own calibration. *)

Module Scanreader.

(** A delay image: one row of pixels per line. *)
Definition image : Type := list (list float).

(** An element of [scan.fields] (multi-ROI scans). *)
Record Field : Type := mkField {
  x : float;
  y : float;
  depth : float
}.

Record Scan : Type := mkScan {
  is_multiROI : bool;
  num_fields : Z;
  num_channels : Z;
  num_frames : Z;
  num_scanning_depths : Z;
  num_rois : Z;
  motor_position_at_zero : list float;
  fps : float;
  is_bidirectional : bool;
  seconds_per_line : float;
  temporal_fill_fraction : float;
  field_heights : list Z;
  field_widths : list Z;
  field_heights_in_microns : list float;
  field_widths_in_microns : list float;
  fields : list Field;
  degrees_to_microns : float -> float;
  field_offsets : list image;
  image_height : Z;
  image_width : Z;
  image_height_in_microns : option float;
  image_width_in_microns : option float;
  scanning_depths : list float
}.

End Scanreader.

(** ** The tables *)

(** The primary key of [Scan], a dict of attribute values. *)
Definition Key : Type := list (string * Z).

(** A row of [ScanInfo]. *)
Record ScanInfo_row : Type := mkScanInfo {
  scan_key : Key;
  nfields : Z;
  nchannels : Z;
  ndepths : Z;
  nframes : Z;
  nrois : Z;
  x : float;
  y : float;
  fps : float;
  bidirectional : bool;
  usecs_per_line : float;
  fill_fraction : float
}.

(** A row of [ScanInfo.Field]; [um_height] and [um_width] are nullable. *)
Record Field_row : Type := mkFieldRow {
  field_key : Key;
  field_idx : Z;
  px_height : Z;
  px_width : Z;
  um_height : option float;
  um_width : option float;
  field_x : float;
  field_y : float;
  field_z : float;
  delay_image : Scanreader.image
}.

(** A row of [ScanInfo.ScanFile]. *)
Record ScanFile_row : Type := mkScanFile {
  file_key : Key;
  file_path : string
}.

Record DB : Type := mkDB {
  ScanInfo : list ScanInfo_row;
  Field : list Field_row;
  ScanFile : list ScanFile_row
}.

Definition empty_db : DB := mkDB [] [] [].

(** ** Statements over the database

    A statement takes the database and returns it, changed by the inserts
    executed so far, with the value returned or the exception raised. *)

Definition M (A : Type) : Type := DB -> DB * outcome A.

Definition ret {A : Type} (a : A) : M A := fun db => (db, Return a).

Definition bindM {A B : Type} (m : M A) (k : A -> M B) : M B :=
  fun db =>
    match m db with
    | (db', Return a) => k a db'
    | (db', Raise e) => (db', Raise e)
    end.

(** An expression that reads no table. *)
Definition eval {A : Type} (o : outcome A) : M A := fun db => (db, o).

Declare Scope stmt_scope.
Delimit Scope stmt_scope with stmt.

Notation "x <- m ;; k" := (bindM m (fun x => k))
  (at level 61, m at next level, right associativity) : stmt_scope.
Notation "m ;; k" := (bindM m (fun _ => k))
  (at level 61, right associativity) : stmt_scope.

(** The inserts append. DataJoint checks the rows against the declared
    keys and types on the server, and raises for a row it refuses; these
    checks are not among the statements of [make] and are not modelled: an
    insert here goes through.

    [self.insert1(row)] *)
Definition insert1 (row : ScanInfo_row) : M unit :=
  fun db => (mkDB (ScanInfo db ++ [row]) (Field db) (ScanFile db), Return tt).

(** [self.Field.insert(rows)] *)
Definition Field_insert (rows : list Field_row) : M unit :=
  fun db => (mkDB (ScanInfo db) (Field db ++ rows) (ScanFile db), Return tt).

(** [self.ScanFile.insert(rows)] *)
Definition ScanFile_insert (rows : list ScanFile_row) : M unit :=
  fun db => (mkDB (ScanInfo db) (Field db) (ScanFile db ++ rows), Return tt).

(** ** [ScanInfo.make] *)

(** The row passed to [self.insert1] (lines 151-162). *)
Definition header_row (key : Key) (scan : Scanreader.Scan) : outcome ScanInfo_row :=
  (x0 <- subscript (Scanreader.motor_position_at_zero scan) 0 ;;
   y0 <- subscript (Scanreader.motor_position_at_zero scan) 1 ;;
   Return {|
     scan_key := key;
     nfields := Scanreader.num_fields scan;
     nchannels := Scanreader.num_channels scan;
     nframes := Scanreader.num_frames scan;
     ndepths := Scanreader.num_scanning_depths scan;
     x := x0;
     y := y0;
     fps := Scanreader.fps scan;
     bidirectional := Scanreader.is_bidirectional scan;
     usecs_per_line := (Scanreader.seconds_per_line scan * 1e6)%float;
     fill_fraction := Scanreader.temporal_fill_fraction scan;
     nrois := if Scanreader.is_multiROI scan
              then Scanreader.num_rois scan else 0
   |})%py.

(** [x_zero, y_zero, z_zero = scan.motor_position_at_zero] (line 165). *)
Definition unpack3 (l : list float) : outcome (float * float * float) :=
  match l with
  | [a; b; c] => Return (a, b, c)
  | _ => Raise (UnpackError 3 (List.length l))
  end.

(** One dict of the multi-ROI comprehension (lines 167-176). *)
Definition roi_field_row (key : Key) (scan : Scanreader.Scan)
    (zero : float * float * float) (field_id : Z) : outcome Field_row :=
  let '(x_zero, y_zero, z_zero) := zero in
  (h <- subscript (Scanreader.field_heights scan) field_id ;;
   w <- subscript (Scanreader.field_widths scan) field_id ;;
   uh <- subscript (Scanreader.field_heights_in_microns scan) field_id ;;
   uw <- subscript (Scanreader.field_widths_in_microns scan) field_id ;;
   fx <- subscript (Scanreader.fields scan) field_id ;;
   fy <- subscript (Scanreader.fields scan) field_id ;;
   fz <- subscript (Scanreader.fields scan) field_id ;;
   d <- subscript (Scanreader.field_offsets scan) field_id ;;
   Return {|
     field_key := key;
     field_idx := field_id;
     px_height := h;
     px_width := w;
     um_height := Some uh;
     um_width := Some uw;
     field_x := (x_zero + Scanreader.degrees_to_microns scan (Scanreader.x fx))%float;
     field_y := (y_zero + Scanreader.degrees_to_microns scan (Scanreader.y fy))%float;
     field_z := (z_zero + Scanreader.depth fz)%float;
     delay_image := d
   |})%py.

(** One dict of the single-plane comprehension (lines 179-188). *)
Definition plane_field_row (key : Key) (scan : Scanreader.Scan)
    (zero : float * float * float) (plane_idx : Z) : outcome Field_row :=
  let '(x_zero, y_zero, z_zero) := zero in
  (dz <- subscript (Scanreader.scanning_depths scan) plane_idx ;;
   d <- subscript (Scanreader.field_offsets scan) plane_idx ;;
   Return {|
     field_key := key;
     field_idx := plane_idx;
     px_height := Scanreader.image_height scan;
     px_width := Scanreader.image_width scan;
     um_height := Scanreader.image_height_in_microns scan;
     um_width := Scanreader.image_width_in_microns scan;
     field_x := x_zero;
     field_y := y_zero;
     field_z := (z_zero + dz)%float;
     delay_image := d
   |})%py.

(** The list passed to [self.Field.insert] (lines 165-189). *)
Definition field_rows (key : Key) (scan : Scanreader.Scan) : outcome (list Field_row) :=
  (zero <- unpack3 (Scanreader.motor_position_at_zero scan) ;;
   if Scanreader.is_multiROI scan
   then comprehension (roi_field_row key scan zero)
          (range (Scanreader.num_fields scan))
   else comprehension (plane_field_row key scan zero)
          (range (Scanreader.num_scanning_depths scan)))%py.

(** [[pathlib.Path(f).relative_to(root).as_posix() for f in scan_filenames]]
    (line 193). *)
Definition scan_files (root : Pathlib.PurePath) (scan_filenames : list string)
  : outcome (list string) :=
  comprehension
    (fun f => (r <- Pathlib.relative_to (Pathlib.Path f) root ;;
               Return (Pathlib.as_posix r))%py)
    scan_filenames.

Section Make.

(** The functions of the linking module, and the scan reader. *)
Variable get_root_data_dir : string.
Variable get_scan_image_files : Key -> list string.
Variable read_scan : list string -> outcome Scanreader.Scan.

Definition make (key : Key) : M unit :=
  (let scan_filenames := get_scan_image_files key in
   scan <- eval (read_scan scan_filenames) ;;
   (* Insert in ScanInfo *)
   hdr <- eval (header_row key scan) ;;
   insert1 hdr ;;
   (* Insert Field(s) *)
   rows <- eval (field_rows key scan) ;;
   Field_insert rows ;;
   (* Insert file(s) *)
   let root := Pathlib.Path get_root_data_dir in
   fs <- eval (scan_files root scan_filenames) ;;
   ScanFile_insert (map (fun f => mkScanFile key f) fs))%stmt.

End Make.

(** ** Well-formed scans and sample acquisitions *)

(** The reader's lists are as long as the counts it reports, and the motor
    position has its three coordinates: what [make] needs in order not to
    raise before the files are handled. *)
Definition scan_ok (scan : Scanreader.Scan) : bool :=
  (List.length (Scanreader.motor_position_at_zero scan) =? 3)%nat
  && if Scanreader.is_multiROI scan then
       let n := Z.to_nat (Scanreader.num_fields scan) in
       (n <=? List.length (Scanreader.field_heights scan))%nat
       && (n <=? List.length (Scanreader.field_widths scan))%nat
       && (n <=? List.length (Scanreader.field_heights_in_microns scan))%nat
       && (n <=? List.length (Scanreader.field_widths_in_microns scan))%nat
       && (n <=? List.length (Scanreader.fields scan))%nat
       && (n <=? List.length (Scanreader.field_offsets scan))%nat
     else
       let n := Z.to_nat (Scanreader.num_scanning_depths scan) in
       (n <=? List.length (Scanreader.scanning_depths scan))%nat
       && (n <=? List.length (Scanreader.field_offsets scan))%nat.

(** A single-plane acquisition of three planes, 0, 5 and 10 microns below
    the motor's zero at (10, 20, 0), and a multi-ROI acquisition of two
    fields; the reader of the samples reports 15 microns per degree. *)

Definition blank : Scanreader.image := [[0; 0]; [0; 0]]%float.

Definition plane_scan : Scanreader.Scan := {|
  Scanreader.is_multiROI := false;
  Scanreader.num_fields := 3;
  Scanreader.num_channels := 2;
  Scanreader.num_frames := 100;
  Scanreader.num_scanning_depths := 3;
  Scanreader.num_rois := 7;
  Scanreader.motor_position_at_zero := [10; 20; 0]%float;
  Scanreader.fps := 30%float;
  Scanreader.is_bidirectional := true;
  Scanreader.seconds_per_line := 0.0000625%float;
  Scanreader.temporal_fill_fraction := 0.75%float;
  Scanreader.field_heights := [];
  Scanreader.field_widths := [];
  Scanreader.field_heights_in_microns := [];
  Scanreader.field_widths_in_microns := [];
  Scanreader.fields := [];
  Scanreader.degrees_to_microns := fun d => (d * 15)%float;
  Scanreader.field_offsets := [blank; blank; blank];
  Scanreader.image_height := 2;
  Scanreader.image_width := 2;
  Scanreader.image_height_in_microns := None;
  Scanreader.image_width_in_microns := None;
  Scanreader.scanning_depths := [0; 5; 10]%float
|}.

Definition roi_scan : Scanreader.Scan := {|
  Scanreader.is_multiROI := true;
  Scanreader.num_fields := 2;
  Scanreader.num_channels := 1;
  Scanreader.num_frames := 50;
  Scanreader.num_scanning_depths := 1;
  Scanreader.num_rois := 2;
  Scanreader.motor_position_at_zero := [10; 20; 100]%float;
  Scanreader.fps := 15%float;
  Scanreader.is_bidirectional := false;
  Scanreader.seconds_per_line := 0.000125%float;
  Scanreader.temporal_fill_fraction := 0.5%float;
  Scanreader.field_heights := [2; 2];
  Scanreader.field_widths := [2; 2];
  Scanreader.field_heights_in_microns := [400; 600]%float;
  Scanreader.field_widths_in_microns := [400; 600]%float;
  Scanreader.fields :=
    [Scanreader.mkField 1 (-2) 0; Scanreader.mkField (-3) 4 50]%float;
  Scanreader.degrees_to_microns := fun d => (d * 15)%float;
  Scanreader.field_offsets := [blank; blank];
  Scanreader.image_height := 2;
  Scanreader.image_width := 2;
  Scanreader.image_height_in_microns := None;
  Scanreader.image_width_in_microns := None;
  Scanreader.scanning_depths := [0]%float
|}.

(** [scan] with another motor position, and with no plane at all. *)
Definition with_motor (m : list float) (scan : Scanreader.Scan) : Scanreader.Scan :=
  Scanreader.mkScan
    (Scanreader.is_multiROI scan) (Scanreader.num_fields scan)
    (Scanreader.num_channels scan) (Scanreader.num_frames scan)
    (Scanreader.num_scanning_depths scan) (Scanreader.num_rois scan)
    m
    (Scanreader.fps scan) (Scanreader.is_bidirectional scan)
    (Scanreader.seconds_per_line scan) (Scanreader.temporal_fill_fraction scan)
    (Scanreader.field_heights scan) (Scanreader.field_widths scan)
    (Scanreader.field_heights_in_microns scan)
    (Scanreader.field_widths_in_microns scan)
    (Scanreader.fields scan) (Scanreader.degrees_to_microns scan)
    (Scanreader.field_offsets scan)
    (Scanreader.image_height scan) (Scanreader.image_width scan)
    (Scanreader.image_height_in_microns scan)
    (Scanreader.image_width_in_microns scan)
    (Scanreader.scanning_depths scan).


(** A linking module with its root at [/data]: scan 1 lies under it, scan 2
    has its second file on another drive. *)
Definition sample_key (scan_id : Z) : Key :=
  [("session"%string, 4); ("scan_id"%string, scan_id)].

Definition sample_root : string := "/data".

Definition sample_files (key : Key) : list string :=
  match key with
  | [_; (_, 2)] => ["/data/m4/scan2_00001.tif"; "/mnt/m4/scan2_00002.tif"]
  | _ => ["/data/m4/scan1_00001.tif"; "/data/m4//scan1_00002.tif"]
  end%string.

(** ** The module's globals: [activate] and the linking module

    The module keeps the linking module in the global [_linking_module],
    [None] until [activate] has run, and asks it for the root data
    directory and for the files of a scan. [importlib.import_module] and
    [schema.activate] belong to Python and to DataJoint: they are taken as
    they come, the one as a function that finds a module or raises, the
    other as a statement over the schema object that may raise. *)

Module LinkingModule.

(** A module object, by what its two functions return when it has them. *)
Record linking : Type := mkLinking {
  get_root_data_dir : option string;
  get_scan_image_files : option (Key -> list string)
}.

End LinkingModule.

Module Element.

(** The objects that a caller may pass as [linking_module]. *)
Inductive object : Type :=
| PyNone
| PyStr (s : string)
| PyModule (m : LinkingModule.linking)
| PyOther (repr : string).

Inductive error : Type :=
| AssertionError (msg : string)
| AttributeError (obj attr : string)
| ImportError (name : string)
| SchemaError (msg : string)
| MakeError (e : exn).
    (* an exception of the body of [make] *)

Inductive result (A : Type) : Type :=
| Ok (a : A)
| Err (e : error).

Arguments Ok {A} a.
Arguments Err {A} e.

Definition raised {A : Type} (o : outcome A) : result A :=
  match o with
  | Return a => Ok a
  | Raise e => Err (MakeError e)
  end.

Record Globals (Schema : Type) : Type := mkGlobals {
  _linking_module : option LinkingModule.linking;
  schema : Schema
}.

Arguments mkGlobals {Schema} _ _.
Arguments _linking_module {Schema} g.
Arguments schema {Schema} g.

Section Activate.

Variable Schema : Type.
Variable import_module : string -> result LinkingModule.linking.
Variable schema_activate :
  string -> bool -> bool -> LinkingModule.linking -> Schema ->
  Schema * result unit.

(** [activate(scan_schema_name, create_schema=..., create_tables=...,
    linking_module=...)] (lines 16-47). *)
Definition activate (scan_schema_name : string)
    (create_schema create_tables : bool) (linking_module : object)
    (g : Globals Schema) : Globals Schema * result unit :=
  let imported :=
    match linking_module with
    | PyStr name =>
        match import_module name with
        | Ok m => Ok (PyModule m)
        | Err e => Err e
        end
    | o => Ok o
    end in
  match imported with
  | Err e => (g, Err e)
  | Ok (PyModule m) =>
      let '(s, r) :=
        schema_activate scan_schema_name create_schema create_tables m
          (schema g) in
      (mkGlobals (Some m) s, r)
  | Ok _ =>
      (g, Err (AssertionError
                 "The argument 'dependency' must be a module's name or a module"))
  end.

End Activate.

(** [get_root_data_dir()] (lines 53-58). *)
Definition get_root_data_dir {Schema : Type} (g : Globals Schema)
  : result string :=
  match _linking_module g with
  | None => Err (AttributeError "NoneType" "get_root_data_dir")
  | Some m =>
      match LinkingModule.get_root_data_dir m with
      | Some d => Ok d
      | None => Err (AttributeError "module" "get_root_data_dir")
      end
  end.

(** [get_scan_image_files(scan_key)] (lines 61-67). *)
Definition get_scan_image_files {Schema : Type} (g : Globals Schema)
    (scan_key : Key) : result (list string) :=
  match _linking_module g with
  | None => Err (AttributeError "NoneType" "get_scan_image_files")
  | Some m =>
      match LinkingModule.get_scan_image_files m with
      | Some f => Ok (f scan_key)
      | None => Err (AttributeError "module" "get_scan_image_files")
      end
  end.

(** Statements over the tables that may raise any of the errors. *)
Definition MR (A : Type) : Type := DB -> DB * result A.

Definition bindR {A B : Type} (m : MR A) (k : A -> MR B) : MR B :=
  fun db =>
    match m db with
    | (db', Ok a) => k a db'
    | (db', Err e) => (db', Err e)
    end.

Definition evalR {A : Type} (r : result A) : MR A := fun db => (db, r).

Definition lift {A : Type} (m : M A) : MR A :=
  fun db => let '(db', o) := m db in (db', raised o).

Declare Scope element_scope.
Delimit Scope element_scope with element.

Notation "x <- m ;; k" := (bindR m (fun x => k))
  (at level 61, m at next level, right associativity) : element_scope.
Notation "m ;; k" := (bindR m (fun _ => k))
  (at level 61, right associativity) : element_scope.

(** [ScanInfo.make] as it runs in the module (lines 143-194): the files
    and the root come from the linking module that the globals hold. *)
Definition make {Schema : Type}
    (read_scan : list string -> outcome Scanreader.Scan)
    (g : Globals Schema) (key : Key) : MR unit :=
  (scan_filenames <- evalR (get_scan_image_files g key) ;;
   scan <- evalR (raised (read_scan scan_filenames)) ;;
   hdr <- evalR (raised (header_row key scan)) ;;
   lift (insert1 hdr) ;;
   rows <- evalR (raised (field_rows key scan)) ;;
   lift (Field_insert rows) ;;
   dir <- evalR (get_root_data_dir g) ;;
   let root := Pathlib.Path dir in
   fs <- evalR (raised (scan_files root scan_filenames)) ;;
   lift (ScanFile_insert (map (fun f => mkScanFile key f) fs)))%element.

End Element.

(** A linking module for the samples, and a schema object that records the
    names it was activated with. *)
Definition sample_linking : LinkingModule.linking :=
  LinkingModule.mkLinking (Some sample_root) (Some sample_files).

Definition sample_import (name : string) : Element.result LinkingModule.linking :=
  if String.eqb name "my_pipeline" then Element.Ok sample_linking
  else Element.Err (Element.ImportError name).

Definition sample_schema_activate (scan_schema_name : string)
    (create_schema create_tables : bool) (m : LinkingModule.linking)
    (s : list string) : list string * Element.result unit :=
  (scan_schema_name :: s, Element.Ok tt).

(** [scan] with other counts, the lists staying as they are. *)
Definition with_counts (nfields ndepths : Z) (scan : Scanreader.Scan)
  : Scanreader.Scan :=
  Scanreader.mkScan
    (Scanreader.is_multiROI scan) nfields
    (Scanreader.num_channels scan) (Scanreader.num_frames scan)
    ndepths (Scanreader.num_rois scan)
    (Scanreader.motor_position_at_zero scan)
    (Scanreader.fps scan) (Scanreader.is_bidirectional scan)
    (Scanreader.seconds_per_line scan) (Scanreader.temporal_fill_fraction scan)
    (Scanreader.field_heights scan) (Scanreader.field_widths scan)
    (Scanreader.field_heights_in_microns scan)
    (Scanreader.field_widths_in_microns scan)
    (Scanreader.fields scan) (Scanreader.degrees_to_microns scan)
    (Scanreader.field_offsets scan)
    (Scanreader.image_height scan) (Scanreader.image_width scan)
    (Scanreader.image_height_in_microns scan)
    (Scanreader.image_width_in_microns scan)
    (Scanreader.scanning_depths scan).

(** [scan] stripped of what only a multi-ROI scan has, and of what only a
    single-plane scan has. *)
Definition without_roi_attributes (scan : Scanreader.Scan) : Scanreader.Scan :=
  Scanreader.mkScan
    (Scanreader.is_multiROI scan) (Scanreader.num_fields scan)
    (Scanreader.num_channels scan) (Scanreader.num_frames scan)
    (Scanreader.num_scanning_depths scan) 0
    (Scanreader.motor_position_at_zero scan)
    (Scanreader.fps scan) (Scanreader.is_bidirectional scan)
    (Scanreader.seconds_per_line scan) (Scanreader.temporal_fill_fraction scan)
    [] [] [] [] [] (fun d => d)
    (Scanreader.field_offsets scan)
    (Scanreader.image_height scan) (Scanreader.image_width scan)
    (Scanreader.image_height_in_microns scan)
    (Scanreader.image_width_in_microns scan)
    (Scanreader.scanning_depths scan).

Definition without_plane_attributes (scan : Scanreader.Scan) : Scanreader.Scan :=
  Scanreader.mkScan
    (Scanreader.is_multiROI scan) (Scanreader.num_fields scan)
    (Scanreader.num_channels scan) (Scanreader.num_frames scan)
    (Scanreader.num_scanning_depths scan) (Scanreader.num_rois scan)
    (Scanreader.motor_position_at_zero scan)
    (Scanreader.fps scan) (Scanreader.is_bidirectional scan)
    (Scanreader.seconds_per_line scan) (Scanreader.temporal_fill_fraction scan)
    (Scanreader.field_heights scan) (Scanreader.field_widths scan)
    (Scanreader.field_heights_in_microns scan)
    (Scanreader.field_widths_in_microns scan)
    (Scanreader.fields scan) (Scanreader.degrees_to_microns scan)
    (Scanreader.field_offsets scan)
    0 0 None None [].

(** The globals before any activation, and a linking module that lacks
    [get_root_data_dir]. *)
Definition fresh_globals : Element.Globals (list string) :=
  Element.mkGlobals None [].

Definition rootless_linking : LinkingModule.linking :=
  LinkingModule.mkLinking None (Some sample_files).

(** ** Binary64 numbers as rationals

    What is needed to say how far a product or a quotient of floats is from
    the exact one: the value of a float, and the position of an exact value
    with respect to the mantissa that [SpecFloat] rounds. *)

Module Binary64.

(** The value of a finite number; 0 stands for the others. *)
Definition SF2Q (x : spec_float) : Q :=
  match x with
  | S754_finite s m e => (inject_Z (cond_Zopp s (Zpos m)) * 2 ^ e)%Q
  | _ => 0%Q
  end.

Definition F2Q (f : float) : Q := SF2Q (Prim2SF f).

(** The mantissa and the exponent of 1e6, which is [15625 * 2 ^ 6]. *)
Definition m1e6 : positive := 8589934592000000.
Definition e1e6 : Z := -33.

(** [located N D mrs]: the non-negative rational [N / D] has integer part
    [shr_m mrs], and the round and sticky bits of [mrs] tell where its
    fractional part lies with respect to one half. *)
Definition located (N D : Z) (mrs : shr_record) : Prop :=
  let m := shr_m mrs in
  0 < D /\ 0 <= m /\ m * D <= N < (m + 1) * D
  /\ match shr_r mrs, shr_s mrs with
     | false, false => N = m * D
     | false, true => m * D < N /\ 2 * N < (2 * m + 1) * D
     | true, false => 2 * N = (2 * m + 1) * D
     | true, true => (2 * m + 1) * D < 2 * N
     end.

End Binary64.

(** * Properties *)

(** ** Comprehensions, ranges and subscripts *)

Section Comprehension.

Context {A B : Type}.
Variable f : A -> outcome B.

Lemma comprehension_Forall2 (xs : list A) :
  forall ys, comprehension f xs = Return ys ->
             Forall2 (fun a b => f a = Return b) xs ys.
Proof.
  induction xs as [|a xs IH]; simpl; intros ys H.
  - injection H as <-. constructor.
  - destruct (f a) as [b|e] eqn:Ea; simpl in H; [|discriminate].
    destruct (comprehension f xs) as [bs|e] eqn:Ebs; simpl in H; [|discriminate].
    injection H as <-. constructor; auto.
Qed.

Lemma comprehension_returns (xs : list A) :
  Forall (fun a => exists b, f a = Return b) xs ->
  exists ys, comprehension f xs = Return ys.
Proof.
  induction 1 as [|a xs [b Hb] _ [ys Hys]]; simpl.
  - now exists [].
  - exists (b :: ys). now rewrite Hb, Hys.
Qed.

Lemma comprehension_raises (xs : list A) :
  Exists (fun a => exists e, f a = Raise e) xs ->
  exists e, comprehension f xs = Raise e.
Proof.
  induction 1 as [a xs [e He]|a xs _ [e He]]; simpl.
  - exists e. now rewrite He.
  - destruct (f a) as [b|e']; simpl; [|now exists e'].
    exists e. now rewrite He.
Qed.

Lemma comprehension_length (xs : list A) (ys : list B) :
  comprehension f xs = Return ys -> List.length ys = List.length xs.
Proof.
  intros H. symmetry. eapply Forall2_length, comprehension_Forall2, H.
Qed.

Lemma comprehension_nth (xs : list A) (ys : list B) (k : nat) (a : A) :
  comprehension f xs = Return ys ->
  nth_error xs k = Some a ->
  exists b, nth_error ys k = Some b /\ f a = Return b.
Proof.
  intros H. apply comprehension_Forall2 in H.
  revert k. induction H as [|a' b' xs ys Hab _ IH]; intros [|k] Hk;
    simpl in *; try discriminate.
  - injection Hk as <-. eauto.
  - auto.
Qed.

Lemma comprehension_In (xs : list A) (ys : list B) (b : B) :
  comprehension f xs = Return ys ->
  In b ys -> exists a, In a xs /\ f a = Return b.
Proof.
  intros H. apply comprehension_Forall2 in H.
  induction H as [|a' b' xs ys Hab _ IH]; simpl; intros Hin; [easy|].
  destruct Hin as [<-|Hin]; [eauto|].
  destruct (IH Hin) as (a & Ha & Hf). eauto.
Qed.

End Comprehension.

(** A projection of the elements that only depends on the argument can be
    read off the argument list. *)
Lemma comprehension_proj {A B : Type} (f : A -> outcome B) (p : B -> A)
    (xs : list A) (ys : list B) :
  (forall a b, f a = Return b -> p b = a) ->
  comprehension f xs = Return ys -> map p ys = xs.
Proof.
  intros Hp H. apply comprehension_Forall2 in H.
  induction H as [|a b xs ys Hab _ IH]; simpl; [reflexivity|].
  f_equal; [now apply Hp|exact IH].
Qed.

(** The exception of a comprehension is the one of an element. *)
Lemma comprehension_Raise_inv {A B : Type} (f : A -> outcome B)
    (xs : list A) (e : exn) :
  comprehension f xs = Raise e -> exists a, In a xs /\ f a = Raise e.
Proof.
  induction xs as [|a xs IH]; simpl; [discriminate|].
  destruct (f a) as [b|e'] eqn:Ea; simpl.
  - destruct (comprehension f xs) as [ys|e'] eqn:Ec; simpl; [discriminate|].
    intros H. injection H as <-. destruct (IH eq_refl) as (a' & Hin & Ha').
    eauto.
  - intros H. injection H as <-. eauto.
Qed.

Lemma range_length (n : Z) : List.length (range n) = Z.to_nat n.
Proof. unfold range. now rewrite length_map, length_seq. Qed.

Lemma range_nth (n : Z) (k : nat) :
  (k < Z.to_nat n)%nat -> nth_error (range n) k = Some (Z.of_nat k).
Proof.
  intros Hk. unfold range.
  rewrite nth_error_map, nth_error_seq.
  destruct (Nat.ltb_spec k (Z.to_nat n)); [reflexivity|lia].
Qed.

Lemma range_In (n i : Z) : In i (range n) <-> 0 <= i < n.
Proof.
  unfold range. rewrite in_map_iff. split.
  - intros (k & <- & Hk). apply in_seq in Hk. lia.
  - intros Hi. exists (Z.to_nat i). split; [lia|]. apply in_seq. lia.
Qed.

Lemma range_NoDup (n : Z) : NoDup (range n).
Proof.
  unfold range. apply Injective_map_NoDup.
  - intros a b. apply Nat2Z.inj.
  - apply seq_NoDup.
Qed.

Lemma subscript_returns {A : Type} (xs : list A) (i n : Z) :
  0 <= i < n -> (Z.to_nat n <= List.length xs)%nat ->
  exists a, subscript xs i = Return a.
Proof.
  intros Hi Hn. unfold subscript.
  destruct (nth_error xs (Z.to_nat i)) as [a|] eqn:E; [eauto|].
  apply nth_error_None in E. lia.
Qed.

Lemma subscript_Return {A : Type} (xs : list A) (i : Z) (a : A) :
  subscript xs i = Return a <-> nth_error xs (Z.to_nat i) = Some a.
Proof.
  unfold subscript. destruct (nth_error xs (Z.to_nat i)); split; congruence.
Qed.

(** ** The stages of [make] *)

Lemma unpack3_Return (l : list float) (zero : float * float * float) :
  unpack3 l = Return zero <->
  l = [fst (fst zero); snd (fst zero); snd zero].
Proof.
  destruct zero as [[a b] c]. unfold unpack3. simpl.
  destruct l as [|a' [|b' [|c' [|d l]]]]; split; intros H;
    try discriminate; congruence.
Qed.

Lemma header_row_of_unpack3 (key : Key) (scan : Scanreader.Scan)
    (zero : float * float * float) :
  unpack3 (Scanreader.motor_position_at_zero scan) = Return zero ->
  exists hdr, header_row key scan = Return hdr.
Proof.
  intros H. apply unpack3_Return in H. unfold header_row. rewrite H.
  simpl. eauto.
Qed.

Ltac bind_inv H :=
  repeat match type of H with
    | bind ?m _ = Return _ =>
        let E := fresh "E" in
        destruct m eqn:E; simpl in H; [|discriminate H]
    end.

Ltac split_andb :=
  repeat match goal with
    | H : _ && _ = true |- _ => apply andb_prop in H; destruct H
    | H : (_ <=? _)%nat = true |- _ => apply Nat.leb_le in H
    end.

Lemma roi_field_row_returns (key : Key) (scan : Scanreader.Scan)
    (zero : float * float * float) (i : Z) :
  Scanreader.is_multiROI scan = true -> scan_ok scan = true ->
  0 <= i < Scanreader.num_fields scan ->
  exists r, roi_field_row key scan zero i = Return r.
Proof.
  intros Hm Hok Hi. unfold scan_ok in Hok. rewrite Hm in Hok.
  split_andb.
  unfold roi_field_row. destruct zero as [[x0 y0] z0].
  repeat match goal with
         | |- context [subscript ?l i] =>
             let a := fresh "a" in let E := fresh "E" in
             destruct (subscript_returns l i _ Hi ltac:(eassumption)) as [a E];
             rewrite E; simpl
         end.
  eauto.
Qed.

Lemma plane_field_row_returns (key : Key) (scan : Scanreader.Scan)
    (zero : float * float * float) (i : Z) :
  Scanreader.is_multiROI scan = false -> scan_ok scan = true ->
  0 <= i < Scanreader.num_scanning_depths scan ->
  exists r, plane_field_row key scan zero i = Return r.
Proof.
  intros Hm Hok Hi. unfold scan_ok in Hok. rewrite Hm in Hok.
  split_andb.
  unfold plane_field_row. destruct zero as [[x0 y0] z0].
  repeat match goal with
         | |- context [subscript ?l i] =>
             let a := fresh "a" in let E := fresh "E" in
             destruct (subscript_returns l i _ Hi ltac:(eassumption)) as [a E];
             rewrite E; simpl
         end.
  eauto.
Qed.

(** A scan that is [scan_ok] gets through both inserts. *)
Lemma field_rows_returns (key : Key) (scan : Scanreader.Scan) :
  scan_ok scan = true -> exists rows, field_rows key scan = Return rows.
Proof.
  intros Hok. unfold field_rows.
  assert (Hz : exists zero,
             unpack3 (Scanreader.motor_position_at_zero scan) = Return zero).
  { unfold scan_ok in Hok. apply andb_prop in Hok. destruct Hok as [Hl _].
    apply Nat.eqb_eq in Hl.
    destruct (Scanreader.motor_position_at_zero scan)
      as [|a [|b [|c [|d l]]]]; try discriminate.
    now exists (a, b, c). }
  destruct Hz as [zero ->]. simpl.
  destruct (Scanreader.is_multiROI scan) eqn:Hm;
    apply comprehension_returns, Forall_forall; intros i Hi;
    apply range_In in Hi.
  - now apply roi_field_row_returns.
  - now apply plane_field_row_returns.
Qed.

(** The rows of each successful run of [field_rows] carry the indices of
    the range they were built from. *)
Lemma field_rows_idx (key : Key) (scan : Scanreader.Scan) (rows : list Field_row) :
  field_rows key scan = Return rows ->
  map field_idx rows =
  range (if Scanreader.is_multiROI scan then Scanreader.num_fields scan
         else Scanreader.num_scanning_depths scan).
Proof.
  unfold field_rows. intros H.
  destruct (unpack3 _) as [[[x0 y0] z0]|] eqn:Ez; simpl in H; [|discriminate].
  destruct (Scanreader.is_multiROI scan);
    (eapply comprehension_proj; [|exact H]);
    intros i r Hr; [unfold roi_field_row in Hr|unfold plane_field_row in Hr];
    bind_inv Hr; injection Hr as <-; reflexivity.
Qed.

Section MakeStages.

Variable get_root_data_dir : string.
Variable get_scan_image_files : Key -> list string.
Variable read_scan : list string -> outcome Scanreader.Scan.

(** What [make] has done once the field rows are built: both inserts have
    been executed, whatever happens to the file paths afterwards. *)
Lemma make_after_fields (key : Key) (db : DB) (scan : Scanreader.Scan)
    (hdr : ScanInfo_row) (rows : list Field_row) :
  read_scan (get_scan_image_files key) = Return scan ->
  header_row key scan = Return hdr ->
  field_rows key scan = Return rows ->
  make get_root_data_dir get_scan_image_files read_scan key db =
  match scan_files (Pathlib.Path get_root_data_dir) (get_scan_image_files key) with
  | Return fs =>
      (mkDB (ScanInfo db ++ [hdr]) (Field db ++ rows)
            (ScanFile db ++ map (fun f => mkScanFile key f) fs), Return tt)
  | Raise e =>
      (mkDB (ScanInfo db ++ [hdr]) (Field db ++ rows) (ScanFile db), Raise e)
  end.
Proof.
  intros Hs Hh Hr. unfold make, bindM, eval, insert1, Field_insert,
    ScanFile_insert. rewrite Hs, Hh, Hr. simpl.
  now destruct (scan_files _ _).
Qed.

Lemma make_Field (key : Key) (db : DB) (scan : Scanreader.Scan)
    (rows : list Field_row) :
  read_scan (get_scan_image_files key) = Return scan ->
  field_rows key scan = Return rows ->
  Field (fst (make get_root_data_dir get_scan_image_files read_scan key db)) = Field db ++ rows.
Proof.
  intros Hs Hr.
  assert (Hh : exists hdr, header_row key scan = Return hdr).
  { unfold field_rows in Hr.
    destruct (unpack3 _) as [zero|] eqn:Ez; [|discriminate].
    eapply header_row_of_unpack3, Ez. }
  destruct Hh as [hdr Hh].
  rewrite (make_after_fields key db scan hdr rows Hs Hh Hr).
  now destruct (scan_files _ _).
Qed.

Lemma make_ScanInfo (key : Key) (db : DB) (scan : Scanreader.Scan)
    (hdr : ScanInfo_row) :
  read_scan (get_scan_image_files key) = Return scan ->
  header_row key scan = Return hdr ->
  ScanInfo (fst (make get_root_data_dir get_scan_image_files read_scan key db)) = ScanInfo db ++ [hdr].
Proof.
  intros Hs Hh. unfold make, bindM, eval, insert1, Field_insert,
    ScanFile_insert. rewrite Hs, Hh. simpl.
  destruct (field_rows key scan); simpl; [|reflexivity].
  now destruct (scan_files _ _).
Qed.

End MakeStages.

(** ** Field rows, one by one *)

Lemma comprehension_nth_inv {A B : Type} (f : A -> outcome B)
    (xs : list A) (ys : list B) (k : nat) (b : B) :
  comprehension f xs = Return ys ->
  nth_error ys k = Some b ->
  exists a, nth_error xs k = Some a /\ f a = Return b.
Proof.
  intros H. apply comprehension_Forall2 in H.
  revert k. induction H as [|a' b' xs ys Hab _ IH]; intros [|k] Hk;
    simpl in *; try discriminate.
  - injection Hk as <-. eauto.
  - auto.
Qed.

Lemma range_nth_inv (n : Z) (k : nat) (i : Z) :
  nth_error (range n) k = Some i -> i = Z.of_nat k /\ 0 <= i < n.
Proof.
  intros H.
  assert (Hk : (k < Z.to_nat n)%nat).
  { rewrite <- range_length. apply nth_error_Some. congruence. }
  rewrite (range_nth n k Hk) in H. injection H as <-. lia.
Qed.

(** What a multi-ROI row is made of. *)
Lemma roi_field_row_inv (key : Key) (scan : Scanreader.Scan)
    (x_zero y_zero z_zero : float) (i : Z) (r : Field_row) :
  roi_field_row key scan (x_zero, y_zero, z_zero) i = Return r ->
  exists h w uh uw f d,
    nth_error (Scanreader.field_heights scan) (Z.to_nat i) = Some h
    /\ nth_error (Scanreader.field_widths scan) (Z.to_nat i) = Some w
    /\ nth_error (Scanreader.field_heights_in_microns scan) (Z.to_nat i) = Some uh
    /\ nth_error (Scanreader.field_widths_in_microns scan) (Z.to_nat i) = Some uw
    /\ nth_error (Scanreader.fields scan) (Z.to_nat i) = Some f
    /\ nth_error (Scanreader.field_offsets scan) (Z.to_nat i) = Some d
    /\ r = {| field_key := key; field_idx := i;
              px_height := h; px_width := w;
              um_height := Some uh; um_width := Some uw;
              field_x := x_zero + Scanreader.degrees_to_microns scan (Scanreader.x f);
              field_y := y_zero + Scanreader.degrees_to_microns scan (Scanreader.y f);
              field_z := z_zero + Scanreader.depth f;
              delay_image := d |}.
Proof.
  unfold roi_field_row. intros H. bind_inv H. injection H as <-.
  repeat match goal with
         | E : subscript _ _ = Return _ |- _ => apply subscript_Return in E
         end.
  repeat eexists; eassumption.
Qed.

(** What a single-plane row is made of. *)
Lemma plane_field_row_inv (key : Key) (scan : Scanreader.Scan)
    (x_zero y_zero z_zero : float) (i : Z) (r : Field_row) :
  plane_field_row key scan (x_zero, y_zero, z_zero) i = Return r ->
  exists dz d,
    nth_error (Scanreader.scanning_depths scan) (Z.to_nat i) = Some dz
    /\ nth_error (Scanreader.field_offsets scan) (Z.to_nat i) = Some d
    /\ r = {| field_key := key; field_idx := i;
              px_height := Scanreader.image_height scan;
              px_width := Scanreader.image_width scan;
              um_height := Scanreader.image_height_in_microns scan;
              um_width := Scanreader.image_width_in_microns scan;
              field_x := x_zero; field_y := y_zero;
              field_z := z_zero + dz;
              delay_image := d |}.
Proof.
  unfold plane_field_row. intros H. bind_inv H. injection H as <-.
  repeat match goal with
         | E : subscript _ _ = Return _ |- _ => apply subscript_Return in E
         end.
  repeat eexists; eassumption.
Qed.

(** The comprehension that [field_rows] runs, once the motor position is
    unpacked. *)
Lemma field_rows_unpacked (key : Key) (scan : Scanreader.Scan)
    (x_zero y_zero z_zero : float) :
  Scanreader.motor_position_at_zero scan = [x_zero; y_zero; z_zero] ->
  field_rows key scan =
  if Scanreader.is_multiROI scan
  then comprehension (roi_field_row key scan (x_zero, y_zero, z_zero))
         (range (Scanreader.num_fields scan))
  else comprehension (plane_field_row key scan (x_zero, y_zero, z_zero))
         (range (Scanreader.num_scanning_depths scan)).
Proof. intros H. unfold field_rows. now rewrite H. Qed.

Lemma field_rows_length (key : Key) (scan : Scanreader.Scan) (rows : list Field_row) :
  field_rows key scan = Return rows ->
  List.length rows =
  Z.to_nat (if Scanreader.is_multiROI scan then Scanreader.num_fields scan
            else Scanreader.num_scanning_depths scan).
Proof.
  intros H. rewrite <- range_length, <- (field_rows_idx key scan rows H).
  now rewrite length_map.
Qed.

(** ** The rows that [make] inserts *)

(** C3. For a scan whose lists are as long as its counts, [make] inserts
    [num_fields] field rows when the scan is multi-ROI and
    [num_scanning_depths] rows otherwise, and the field indices of the rows
    are 0, 1, ..., n-1 in this order: each index below n once, none else. *)
Theorem field_count_and_indices
    (get_root_data_dir : string) (get_scan_image_files : Key -> list string)
    (read_scan : list string -> outcome Scanreader.Scan)
    (key : Key) (db : DB) (scan : Scanreader.Scan) :
  read_scan (get_scan_image_files key) = Return scan ->
  scan_ok scan = true ->
  0 <= (if Scanreader.is_multiROI scan then Scanreader.num_fields scan
        else Scanreader.num_scanning_depths scan) ->
  exists rows,
    field_rows key scan = Return rows
    /\ Field (fst (make get_root_data_dir get_scan_image_files read_scan key db))
       = Field db ++ rows
    /\ Z.of_nat (List.length rows)
       = (if Scanreader.is_multiROI scan then Scanreader.num_fields scan
          else Scanreader.num_scanning_depths scan)
    /\ map field_idx rows
       = range (if Scanreader.is_multiROI scan then Scanreader.num_fields scan
                else Scanreader.num_scanning_depths scan)
    /\ NoDup (map field_idx rows)
    /\ forall i, In i (map field_idx rows) <->
                 0 <= i < (if Scanreader.is_multiROI scan
                           then Scanreader.num_fields scan
                           else Scanreader.num_scanning_depths scan).
Proof.
  intros Hs Hok Hn.
  destruct (field_rows_returns key scan Hok) as [rows Hr].
  exists rows. split; [exact Hr|]. split; [now apply make_Field with (scan := scan)|].
  pose proof (field_rows_idx key scan rows Hr) as Hidx.
  split; [rewrite (field_rows_length key scan rows Hr); lia|].
  split; [exact Hidx|]. rewrite Hidx.
  split; [apply range_NoDup|]. intros i. apply range_In.
Qed.

Lemma field_count_and_indices_witness :
  exists rows,
    field_rows (sample_key 1) roi_scan = Return rows
    /\ Field (fst (make sample_root sample_files (fun _ => Return roi_scan)
                     (sample_key 1) empty_db)) = [] ++ rows
    /\ Z.of_nat (List.length rows) = 2
    /\ map field_idx rows = range 2
    /\ NoDup (map field_idx rows)
    /\ forall i, In i (map field_idx rows) <-> 0 <= i < 2.
Proof.
  apply (field_count_and_indices sample_root sample_files
           (fun _ => Return roi_scan) (sample_key 1) empty_db roi_scan).
  - reflexivity.
  - reflexivity.
  - simpl. lia.
Defined.

(** C4. In a multi-ROI scan the row of field [i], for every [i] below
    [num_fields], has [field_x] the motor's x zero plus
    [_degrees_to_microns] of the field's x angle, [field_y] likewise from
    the y zero and the y angle, and [field_z] the motor's z zero plus the
    field's depth as it is reported. *)
Theorem roi_field_position (key : Key) (scan : Scanreader.Scan)
    (rows : list Field_row) (x_zero y_zero z_zero : float) (i : Z) :
  Scanreader.is_multiROI scan = true ->
  Scanreader.motor_position_at_zero scan = [x_zero; y_zero; z_zero] ->
  field_rows key scan = Return rows ->
  0 <= i < Scanreader.num_fields scan ->
  exists r f,
    nth_error rows (Z.to_nat i) = Some r
    /\ nth_error (Scanreader.fields scan) (Z.to_nat i) = Some f
    /\ field_idx r = i
    /\ field_x r
       = (x_zero + Scanreader.degrees_to_microns scan (Scanreader.x f))%float
    /\ field_y r
       = (y_zero + Scanreader.degrees_to_microns scan (Scanreader.y f))%float
    /\ field_z r = (z_zero + Scanreader.depth f)%float.
Proof.
  intros Hm Hz Hr Hi.
  rewrite (field_rows_unpacked key scan _ _ _ Hz), Hm in Hr.
  assert (Hk : nth_error (range (Scanreader.num_fields scan)) (Z.to_nat i)
               = Some i).
  { rewrite range_nth by lia. f_equal. lia. }
  destruct (comprehension_nth _ _ _ _ _ Hr Hk) as (r & Hnth & Hrow).
  apply roi_field_row_inv in Hrow.
  destruct Hrow as (h & w & uh & uw & f & d & _ & _ & _ & _ & Hf & _ & ->).
  exists {| field_key := key; field_idx := i; px_height := h; px_width := w;
            um_height := Some uh; um_width := Some uw;
            field_x := x_zero + Scanreader.degrees_to_microns scan (Scanreader.x f);
            field_y := y_zero + Scanreader.degrees_to_microns scan (Scanreader.y f);
            field_z := z_zero + Scanreader.depth f; delay_image := d |}, f.
  simpl. auto 10.
Qed.

Lemma roi_field_position_witness :
  exists r f,
    nth_error [ {| field_key := sample_key 1; field_idx := 0;
                   px_height := 2; px_width := 2;
                   um_height := Some 400%float; um_width := Some 400%float;
                   field_x := 25; field_y := (-10); field_z := 100;
                   delay_image := blank |};
                {| field_key := sample_key 1; field_idx := 1;
                   px_height := 2; px_width := 2;
                   um_height := Some 600%float; um_width := Some 600%float;
                   field_x := (-35); field_y := 80; field_z := 150;
                   delay_image := blank |} ] (Z.to_nat 1) = Some r
    /\ nth_error (Scanreader.fields roi_scan) (Z.to_nat 1) = Some f
    /\ field_idx r = 1
    /\ field_x r = (10 + Scanreader.degrees_to_microns roi_scan (Scanreader.x f))%float
    /\ field_y r = (20 + Scanreader.degrees_to_microns roi_scan (Scanreader.y f))%float
    /\ field_z r = (100 + Scanreader.depth f)%float.
Proof.
  apply (roi_field_position (sample_key 1) roi_scan).
  - reflexivity.
  - reflexivity.
  - reflexivity.
  - simpl. lia.
Defined.

(** C5. In a single-plane scan the row of plane [i], for every [i] below
    [num_scanning_depths], has [field_x] and [field_y] the motor's x and y
    zero and [field_z] the motor's z zero plus the [i]-th scanning depth.
    With the motor's zero at (10, 20, 0) and scanning depths 0, 5 and 10,
    the three rows have [field_z] 0, 5 and 10, and [field_x] 10 and
    [field_y] 20 each. *)
Theorem plane_field_position (key : Key) (scan : Scanreader.Scan)
    (rows : list Field_row) (x_zero y_zero z_zero : float) :
  Scanreader.is_multiROI scan = false ->
  Scanreader.motor_position_at_zero scan = [x_zero; y_zero; z_zero] ->
  field_rows key scan = Return rows ->
  (forall i, 0 <= i < Scanreader.num_scanning_depths scan ->
     exists r dz,
       nth_error rows (Z.to_nat i) = Some r
       /\ nth_error (Scanreader.scanning_depths scan) (Z.to_nat i) = Some dz
       /\ field_idx r = i
       /\ field_x r = x_zero
       /\ field_y r = y_zero
       /\ field_z r = (z_zero + dz)%float)
  /\ (Scanreader.num_scanning_depths scan = 3 ->
      [x_zero; y_zero; z_zero] = [10; 20; 0]%float ->
      Scanreader.scanning_depths scan = [0; 5; 10]%float ->
      map (fun r => (field_x r, field_y r, field_z r)) rows
      = [(10, 20, 0); (10, 20, 5); (10, 20, 10)]%float).
Proof.
  intros Hm Hz Hr.
  rewrite (field_rows_unpacked key scan _ _ _ Hz), Hm in Hr.
  split.
  - intros i Hi.
    assert (Hk : nth_error (range (Scanreader.num_scanning_depths scan))
                   (Z.to_nat i) = Some i).
    { rewrite range_nth by lia. f_equal. lia. }
    destruct (comprehension_nth _ _ _ _ _ Hr Hk) as (r & Hnth & Hrow).
    apply plane_field_row_inv in Hrow.
    destruct Hrow as (dz & d & Hdz & _ & ->).
    eexists; exists dz. split; [exact Hnth|]. simpl. auto 10.
  - intros Hn Hzero Hd. rewrite Hn in Hr. injection Hzero as -> -> ->.
    change (range 3) with [0; 1; 2] in Hr.
    apply comprehension_Forall2 in Hr.
    repeat match goal with
           | H : Forall2 _ _ _ |- _ => inversion H; subst; clear H
           end.
    repeat match goal with
           | E : plane_field_row _ _ _ _ = Return _ |- _ =>
               apply plane_field_row_inv in E;
               destruct E as (? & ? & E & _ & ->);
               rewrite Hd in E; injection E as <-
           end.
    reflexivity.
Qed.

Lemma plane_field_position_witness :
  exists rows,
    field_rows (sample_key 1) plane_scan = Return rows
    /\ map (fun r => (field_x r, field_y r, field_z r)) rows
       = [(10, 20, 0); (10, 20, 5); (10, 20, 10)]%float.
Proof.
  eexists. split; [reflexivity|].
  apply (plane_field_position (sample_key 1) plane_scan _ 10 20 0);
    reflexivity.
Defined.

(** C7. The number of ROIs in the header row is 0 for a scan that is not
    multi-ROI and the reader's [num_rois] for one that is. *)
Theorem header_nrois
    (get_root_data_dir : string) (get_scan_image_files : Key -> list string)
    (read_scan : list string -> outcome Scanreader.Scan)
    (key : Key) (db : DB) (scan : Scanreader.Scan) (hdr : ScanInfo_row) :
  read_scan (get_scan_image_files key) = Return scan ->
  header_row key scan = Return hdr ->
  ScanInfo (fst (make get_root_data_dir get_scan_image_files read_scan key db))
  = ScanInfo db ++ [hdr]
  /\ (Scanreader.is_multiROI scan = false -> nrois hdr = 0)
  /\ (Scanreader.is_multiROI scan = true -> nrois hdr = Scanreader.num_rois scan).
Proof.
  intros Hs Hh. split; [now apply make_ScanInfo with (scan := scan)|].
  unfold header_row in Hh. bind_inv Hh. injection Hh as <-. simpl.
  split; intros ->; reflexivity.
Qed.

Lemma header_nrois_witness :
  exists hdr,
    header_row (sample_key 1) plane_scan = Return hdr
    /\ ScanInfo (fst (make sample_root sample_files (fun _ => Return plane_scan)
                        (sample_key 1) empty_db)) = [] ++ [hdr]
    /\ (Scanreader.is_multiROI plane_scan = false -> nrois hdr = 0)
    /\ (Scanreader.is_multiROI plane_scan = true
        -> nrois hdr = Scanreader.num_rois plane_scan).
Proof.
  eexists. split; [reflexivity|].
  apply (header_nrois sample_root sample_files (fun _ => Return plane_scan)
           (sample_key 1) empty_db plane_scan); reflexivity.
Defined.

(** C10. In a multi-ROI scan every field row has its height and width in
    microns, the entries of [field_heights_in_microns] and
    [field_widths_in_microns] at the row's index. A row with a null height
    (or width) in microns belongs to a scan that is not multi-ROI and that
    lacks [image_height_in_microns] (or [image_width_in_microns]). *)
Theorem um_size_null_only_single_plane (key : Key) (scan : Scanreader.Scan)
    (rows : list Field_row) :
  field_rows key scan = Return rows ->
  (Scanreader.is_multiROI scan = true ->
   forall k r, nth_error rows k = Some r ->
     exists uh uw,
       nth_error (Scanreader.field_heights_in_microns scan) k = Some uh
       /\ nth_error (Scanreader.field_widths_in_microns scan) k = Some uw
       /\ um_height r = Some uh /\ um_width r = Some uw)
  /\ (forall r, In r rows ->
        (um_height r = None ->
         Scanreader.is_multiROI scan = false
         /\ Scanreader.image_height_in_microns scan = None)
        /\ (um_width r = None ->
            Scanreader.is_multiROI scan = false
            /\ Scanreader.image_width_in_microns scan = None)).
Proof.
  intros Hr. unfold field_rows in Hr.
  destruct (unpack3 _) as [[[x0 y0] z0]|]; simpl in Hr; [|discriminate].
  destruct (Scanreader.is_multiROI scan); split; try discriminate.
  - intros _ k r Hk.
    destruct (comprehension_nth_inv _ _ _ _ _ Hr Hk) as (i & Hi & Hrow).
    apply range_nth_inv in Hi. destruct Hi as [-> _].
    apply roi_field_row_inv in Hrow. rewrite Nat2Z.id in Hrow.
    destruct Hrow as (h & w & uh & uw & f & d & _ & _ & Hh & Hw & _ & _ & ->).
    exists uh, uw. simpl. auto.
  - intros r Hin.
    destruct (comprehension_In _ _ _ _ Hr Hin) as (i & _ & Hrow).
    apply roi_field_row_inv in Hrow.
    destruct Hrow as (h & w & uh & uw & f & d & _ & _ & _ & _ & _ & _ & ->).
    simpl. split; discriminate.
  - intros r Hin.
    destruct (comprehension_In _ _ _ _ Hr Hin) as (i & _ & Hrow).
    apply plane_field_row_inv in Hrow.
    destruct Hrow as (dz & d & _ & _ & ->). simpl. auto.
Qed.

Lemma um_size_null_only_single_plane_witness :
  exists rows,
    field_rows (sample_key 1) roi_scan = Return rows
    /\ (Scanreader.is_multiROI roi_scan = true ->
        forall k r, nth_error rows k = Some r ->
          exists uh uw,
            nth_error (Scanreader.field_heights_in_microns roi_scan) k = Some uh
            /\ nth_error (Scanreader.field_widths_in_microns roi_scan) k = Some uw
            /\ um_height r = Some uh /\ um_width r = Some uw)
    /\ (forall r, In r rows ->
          (um_height r = None ->
           Scanreader.is_multiROI roi_scan = false
           /\ Scanreader.image_height_in_microns roi_scan = None)
          /\ (um_width r = None ->
              Scanreader.is_multiROI roi_scan = false
              /\ Scanreader.image_width_in_microns roi_scan = None)).
Proof.
  eexists. split; [reflexivity|].
  apply (um_size_null_only_single_plane (sample_key 1) roi_scan).
  reflexivity.
Defined.

(** ** Relative paths *)

Module PathlibFacts.

Import Pathlib.
Local Open Scope string_scope.

Lemma no_sep_split (s : string) : Forall (fun w => no_sep w = true) (split s).
Proof.
  induction s as [|c s IH]; simpl.
  - repeat constructor.
  - destruct (Ascii.eqb c sep) eqn:Ec.
    + constructor; [reflexivity|exact IH].
    + destruct (split s) as [|w ws]; simpl.
      * repeat constructor. simpl. now rewrite Ec.
      * inversion IH; subst. constructor; [|assumption].
        simpl. rewrite Ec. assumption.
Qed.

Lemma split_no_sep (x : string) : no_sep x = true -> split x = [x].
Proof.
  induction x as [|c x IH]; simpl; [reflexivity|].
  destruct (Ascii.eqb c sep); simpl; [discriminate|].
  intros H. now rewrite (IH H).
Qed.

Lemma split_app_sep (x t : string) :
  no_sep x = true -> split (x ++ String sep t) = x :: split t.
Proof.
  induction x as [|c x IH]; simpl.
  - reflexivity.
  - destruct (Ascii.eqb c sep); simpl; [discriminate|].
    intros H. now rewrite (IH H).
Qed.

Lemma split_join (ns : list string) :
  ns <> [] -> Forall (fun w => no_sep w = true) ns -> split (join ns) = ns.
Proof.
  induction ns as [|x ns IH]; [easy|]. intros _ H.
  inversion H as [|? ? Hx Hns]; subst.
  destruct ns as [|y ns].
  - simpl. now apply split_no_sep.
  - change (join (x :: y :: ns)) with (x ++ String sep (join (y :: ns))).
    rewrite split_app_sep by assumption. f_equal. now apply IH.
Qed.

Lemma Path_names_ok (s : string) : names_ok (names (Path s)).
Proof.
  unfold Path. destruct (splitroot s) as [r rel]. simpl.
  apply Forall_forall. intros w Hw. apply filter_In in Hw.
  destruct Hw as [Hin Hn]. split; [exact Hn|].
  pose proof (no_sep_split rel) as H.
  rewrite Forall_forall in H. now apply H.
Qed.

Lemma names_ok_skipn (n : nat) (ns : list string) :
  names_ok ns -> names_ok (skipn n ns).
Proof.
  revert ns. induction n as [|n IH]; intros [|x ns] H; simpl; auto.
  inversion H; subst. now apply IH.
Qed.

Lemma filter_names_ok (ns : list string) : names_ok ns -> filter is_name ns = ns.
Proof.
  induction 1 as [|x ns [Hx _] _ IH]; simpl; [reflexivity|].
  now rewrite Hx, IH.
Qed.

Lemma splitroot_join (x : string) (ns : list string) :
  is_name x = true -> no_sep x = true ->
  splitroot (join (x :: ns)) = ("", join (x :: ns)).
Proof.
  intros Hx Hs. destruct x as [|c x]; [discriminate|].
  simpl in Hs. destruct (Ascii.eqb c sep) eqn:Ec; [discriminate|].
  destruct ns as [|y ns]; simpl; now rewrite Ec.
Qed.

(** Parsing the text of a relative path gives the path back. *)
Lemma Path_as_posix_relative (ns : list string) :
  names_ok ns -> Path (as_posix (mkPath "" ns)) = mkPath "" ns.
Proof.
  intros H. destruct ns as [|x ns]; [reflexivity|].
  change (as_posix (mkPath "" (x :: ns))) with (join (x :: ns)).
  inversion H as [|? ? [Hx Hs] Hns]; subst.
  unfold Path. rewrite (splitroot_join x ns Hx Hs).
  rewrite split_join; [|discriminate|].
  - now rewrite filter_names_ok.
  - eapply Forall_impl; [|exact H]. now intros w [_ Hw].
Qed.

Lemma relative_to_Return (p other rel : PurePath) :
  relative_to p other = Return rel ->
  root p = root other
  /\ firstn (List.length (names other)) (names p) = names other
  /\ rel = mkPath "" (skipn (List.length (names other)) (names p)).
Proof.
  unfold relative_to, string_list_eqb.
  destruct (String.eqb_spec (root p) (root other)) as [Hr|]; simpl;
    [|discriminate].
  destruct (list_eq_dec _ _ _) as [Hn|]; [|discriminate].
  intros H. injection H as <-. auto.
Qed.

(** One file: the path relative to [other], written out and joined to
    [other] again, is the path of the file. *)
Lemma relative_to_joinpath (p other rel : PurePath) :
  names_ok (names p) ->
  relative_to p other = Return rel ->
  joinpath other (as_posix rel) = p.
Proof.
  intros Hok H. apply relative_to_Return in H.
  destruct H as (Hr & Hn & ->).
  unfold joinpath.
  rewrite Path_as_posix_relative by now apply names_ok_skipn.
  simpl. rewrite <- Hr. rewrite <- Hn at 1. rewrite firstn_skipn.
  now destruct p.
Qed.

End PathlibFacts.

(** The stored paths, joined to the root again, as path objects. *)
Lemma scan_files_joinpath (get_root_data_dir : string)
    (scan_filenames fs : list string) :
  scan_files (Pathlib.Path get_root_data_dir) scan_filenames = Return fs ->
  Forall2 (fun f rel =>
             Pathlib.joinpath (Pathlib.Path get_root_data_dir) rel
             = Pathlib.Path f)
          scan_filenames fs.
Proof.
  intros H. unfold scan_files in H. apply comprehension_Forall2 in H.
  induction H as [|f rel fs' rels Hf _ IH]; constructor; [|exact IH].
  destruct (Pathlib.relative_to _ _) as [r|] eqn:Er; simpl in Hf;
    [|discriminate].
  injection Hf as <-.
  eapply PathlibFacts.relative_to_joinpath; [|exact Er].
  apply PathlibFacts.Path_names_ok.
Qed.

(** C9, as the code has it. Each relative path that [make] stores, joined
    to the root data directory and written out, is the path of its file
    as [pathlib] writes it: with one slash between the names and without
    empty names and single dots. It is the file name that [make] was
    given, character for character, exactly when that name was written
    this way. *)
Theorem relative_path_text_round_trip (get_root_data_dir : string)
    (scan_filenames fs : list string) :
  scan_files (Pathlib.Path get_root_data_dir) scan_filenames = Return fs ->
  Forall2 (fun f rel =>
             let joined :=
               Pathlib.as_posix
                 (Pathlib.joinpath (Pathlib.Path get_root_data_dir) rel) in
             joined = Pathlib.as_posix (Pathlib.Path f)
             /\ (joined = f <-> Pathlib.as_posix (Pathlib.Path f) = f))
          scan_filenames fs.
Proof.
  intros H. apply scan_files_joinpath in H.
  induction H as [|f rel fs' rels Hf _ IH]; constructor; [|exact IH].
  cbv zeta. rewrite Hf. split; [reflexivity|]. split; auto.
Qed.

Lemma relative_path_text_round_trip_witness :
  Forall2 (fun f rel =>
             let joined :=
               Pathlib.as_posix
                 (Pathlib.joinpath (Pathlib.Path sample_root) rel) in
             joined = Pathlib.as_posix (Pathlib.Path f)
             /\ (joined = f <-> Pathlib.as_posix (Pathlib.Path f) = f))
          (sample_files (sample_key 1))
          ["m4/scan1_00001.tif"; "m4/scan1_00002.tif"]%string.
Proof.
  apply (relative_path_text_round_trip sample_root
           (sample_files (sample_key 1))).
  reflexivity.
Defined.

(** C9 as it is stated fails: the second file of scan 1 of the sample is
    written with two slashes in a row; it lies under the root, and its
    stored path joined to the root gives the name with one slash, not the
    name that was given. The first file, written as [pathlib] writes it,
    comes back as it was given. *)
Lemma relative_path_text_differs :
  scan_files (Pathlib.Path "/data")
    ["/data/m4/scan1_00001.tif"; "/data/m4//scan1_00002.tif"]%string
  = Return ["m4/scan1_00001.tif"; "m4/scan1_00002.tif"]%string
  /\ Pathlib.as_posix
       (Pathlib.joinpath (Pathlib.Path "/data") "m4/scan1_00002.tif")
     = "/data/m4/scan1_00002.tif"%string
  /\ Pathlib.as_posix
       (Pathlib.joinpath (Pathlib.Path "/data") "m4/scan1_00002.tif")
     <> "/data/m4//scan1_00002.tif"%string
  /\ Pathlib.as_posix
       (Pathlib.joinpath (Pathlib.Path "/data") "m4/scan1_00001.tif")
     = "/data/m4/scan1_00001.tif"%string.
Proof.
  split; [reflexivity|]. split; [reflexivity|].
  split; [discriminate|reflexivity].
Qed.

(** ** Rounding in binary64: a product and a quotient by 1e6 *)

Module Binary64Facts.

Import Binary64.

Lemma digits2_pos_bounds (p : positive) :
  2 ^ (Zpos (digits2_pos p) - 1) <= Zpos p < 2 ^ Zpos (digits2_pos p).
Proof.
  induction p as [p IH|p IH|]; simpl digits2_pos.
  - rewrite Pos2Z.inj_succ.
    replace (Z.succ (Zpos (digits2_pos p)) - 1) with (Zpos (digits2_pos p)) by lia.
    rewrite Z.pow_succ_r by lia.
    replace (Zpos (digits2_pos p)) with (Z.succ (Zpos (digits2_pos p) - 1)) at 1 by lia.
    rewrite Z.pow_succ_r by lia. lia.
  - rewrite Pos2Z.inj_succ.
    replace (Z.succ (Zpos (digits2_pos p)) - 1) with (Zpos (digits2_pos p)) by lia.
    rewrite Z.pow_succ_r by lia.
    replace (Zpos (digits2_pos p)) with (Z.succ (Zpos (digits2_pos p) - 1)) at 1 by lia.
    rewrite Z.pow_succ_r by lia. lia.
  - simpl. lia.
Qed.

Lemma digits2_pos_unique (p : positive) (k : Z) :
  2 ^ (k - 1) <= Zpos p < 2 ^ k -> Zpos (digits2_pos p) = k.
Proof.
  intros [Hl Hu]. pose proof (digits2_pos_bounds p) as [Bl Bu].
  assert (Hk : 0 < k).
  { destruct (Z.ltb_spec 0 k); [assumption|].
    assert (2 ^ k <= 2 ^ 0) by (apply Z.pow_le_mono_r; lia).
    simpl in *. lia. }
  destruct (Z.lt_trichotomy (Zpos (digits2_pos p)) k) as [H|[H|H]]; [|exact H|].
  - assert (2 ^ Zpos (digits2_pos p) <= 2 ^ (k - 1))
      by (apply Z.pow_le_mono_r; lia). lia.
  - assert (2 ^ k <= 2 ^ (Zpos (digits2_pos p) - 1))
      by (apply Z.pow_le_mono_r; lia). lia.
Qed.

Lemma shr_1_located (N D : Z) (mrs : shr_record) :
  located N D mrs -> located N (2 * D) (shr_1 mrs).
Proof.
  destruct mrs as [m r s]. unfold located. cbn [shr_m shr_r shr_s].
  intros (HD & Hm & Hb & Hl).
  destruct m as [|[p|p|]|p]; try lia; destruct r, s;
    cbn [shr_1 shr_m shr_r shr_s orb] in *;
    try pose proof (Pos2Z.inj_xI p); try pose proof (Pos2Z.inj_xO p); lia.
Qed.

Lemma pow2_xO (p : positive) : 2 ^ Zpos p~0 = 2 ^ Zpos p * 2 ^ Zpos p.
Proof.
  replace (Zpos p~0) with (Zpos p + Zpos p) by lia.
  apply Z.pow_add_r; lia.
Qed.

Lemma pow2_xI (p : positive) : 2 ^ Zpos p~1 = 2 * (2 ^ Zpos p * 2 ^ Zpos p).
Proof.
  replace (Zpos p~1) with (Z.succ (Zpos p~0)) by lia.
  rewrite Z.pow_succ_r by lia. now rewrite pow2_xO.
Qed.

Lemma iter_shr_1_located (N : Z) (p : positive) :
  forall D mrs, located N D mrs ->
                located N (D * 2 ^ Zpos p) (SpecFloat.iter_pos shr_1 p mrs).
Proof.
  induction p as [p IH|p IH|]; intros D mrs H; cbn [SpecFloat.iter_pos].
  - apply shr_1_located, IH, IH in H.
    replace (D * 2 ^ Zpos p~1) with (2 * D * 2 ^ Zpos p * 2 ^ Zpos p); [exact H|].
    rewrite pow2_xI. ring.
  - apply IH, IH in H.
    replace (D * 2 ^ Zpos p~0) with (D * 2 ^ Zpos p * 2 ^ Zpos p); [exact H|].
    rewrite pow2_xO. ring.
  - apply shr_1_located in H. now rewrite Z.mul_comm.
Qed.

Lemma shr_located (N D : Z) (mrs : shr_record) (e n : Z) :
  located N D mrs -> 0 <= n ->
  snd (shr mrs e n) = e + n /\ located N (D * 2 ^ n) (fst (shr mrs e n)).
Proof.
  intros H Hn. destruct n as [|p|p]; try lia; cbn [shr fst snd].
  - split; [lia|]. now rewrite Z.mul_1_r.
  - split; [reflexivity|]. now apply iter_shr_1_located.
Qed.

Lemma round_nearest_even_located (N D : Z) (mrs : shr_record) :
  located N D mrs ->
  let m := round_nearest_even (shr_m mrs) (loc_of_shr_record mrs) in
  shr_m mrs <= m <= shr_m mrs + 1
  /\ - D <= 2 * (m * D) - 2 * N <= D.
Proof.
  destruct mrs as [m r s]. unfold located. cbn [shr_m shr_r shr_s].
  intros (HD & Hm & Hb & Hl).
  destruct r, s; cbn [loc_of_shr_record round_nearest_even]; try lia.
  destruct (Z.even m); lia.
Qed.

Lemma located_shr_record_of_loc_m (m : Z) (l : location) :
  shr_m (shr_record_of_loc m l) = m.
Proof. now destruct l as [|[]]. Qed.

Lemma Zdigits2_unique (m k : Z) :
  2 ^ (k - 1) <= m < 2 ^ k -> 0 < m -> Zdigits2 m = k.
Proof.
  intros H Hm. destruct m as [|p|p]; try lia. now apply digits2_pos_unique.
Qed.

(** Rounding [N / D * 2 ^ ex], located by [mx] and [lx], when [mx] has
    [d >= 53] digits and the result is a normal number. *)
Lemma binary_round_aux_normal (sx : bool) (mx ex : Z) (lx : location)
    (N D d : Z) :
  located N D (shr_record_of_loc mx lx) ->
  2 ^ (d - 1) <= mx < 2 ^ d ->
  53 <= d -> -1074 <= ex + d - 53 ->
  exists m k,
    (k = d - 53 \/ k = d - 52)
    /\ 2 ^ 52 <= Zpos m < 2 ^ 53
    /\ - (D * 2 ^ (d - 53)) <= 2 * (Zpos m * 2 ^ k * D) - 2 * N
       <= D * 2 ^ (d - 53)
    /\ binary_round_aux prec emax sx mx ex lx
       = if ex + k <=? 971 then S754_finite sx m (ex + k)
         else S754_infinity sx.
Proof.
  intros Hloc Hd H53 Hex.
  assert (Hmx : 0 < mx).
  { assert (0 < 2 ^ (d - 1)) by (apply Z.pow_pos_nonneg; lia). lia. }
  unfold binary_round_aux, shr_fexp.
  rewrite (Zdigits2_unique mx d Hd Hmx).
  replace (fexp prec emax (d + ex) - ex) with (d - 53)
    by (unfold fexp, SpecFloat.emin, prec, emax; lia).
  destruct (shr_located N D _ ex (d - 53) Hloc ltac:(lia)) as [He Hloc'].
  destruct (shr (shr_record_of_loc mx lx) ex (d - 53)) as [mrs' e'].
  cbn [fst snd] in He, Hloc'. subst e'.
  set (P := 2 ^ (d - 53)) in *.
  assert (HP : 0 < P) by (apply Z.pow_pos_nonneg; lia).
  assert (Hd1 : 2 ^ (d - 1) = 2 ^ 52 * P).
  { unfold P. rewrite <- Z.pow_add_r by lia. f_equal. lia. }
  assert (Hd2 : 2 ^ d = 2 ^ 53 * P).
  { unfold P. rewrite <- Z.pow_add_r by lia. f_equal. lia. }
  pose proof (round_nearest_even_located N (D * P) mrs' Hloc') as Hr.
  cbv zeta in Hr. destruct Hr as [Hm'' Herr].
  set (m'' := round_nearest_even (shr_m mrs') (loc_of_shr_record mrs')) in *.
  (* the bounds of the shifted mantissa *)
  assert (Hm' : 2 ^ 52 <= shr_m mrs' < 2 ^ 53).
  { destruct Hloc as (HD & _ & Hb & _).
    rewrite located_shr_record_of_loc_m in Hb.
    destruct Hloc' as (_ & _ & Hb' & _).
    rewrite Hd1, Hd2 in Hd.
    split.
    - assert (2 ^ 52 * P * D <= mx * D)
        by (apply Z.mul_le_mono_nonneg_r; lia).
      assert (2 ^ 52 * (D * P) < (shr_m mrs' + 1) * (D * P)) by lia.
      assert (2 ^ 52 < shr_m mrs' + 1).
      { apply Z.mul_lt_mono_pos_r with (p := D * P); [lia|assumption]. }
      lia.
    - assert (shr_m mrs' * (D * P) < 2 ^ 53 * P * D).
      { assert ((mx + 1) * D <= 2 ^ 53 * P * D)
          by (apply Z.mul_le_mono_nonneg_r; lia). lia. }
      assert (shr_m mrs' * (D * P) < 2 ^ 53 * (D * P)) by lia.
      apply Z.mul_lt_mono_pos_r with (p := D * P); [lia|assumption]. }
  change (2 ^ 52) with 4503599627370496 in *.
  change (2 ^ 53) with 9007199254740992 in *.
  destruct (Z.eq_dec m'' 9007199254740992) as [Hc|Hc].
  - (* the mantissa was rounded up to 2 ^ 53 *)
    exists 4503599627370496%positive, (d - 52).
    split; [now right|]. split; [lia|]. split.
    + replace (2 ^ (d - 52)) with (2 * P).
      * rewrite Hc in Herr. lia.
      * unfold P. replace (d - 52) with (Z.succ (d - 53)) by lia.
        now rewrite Z.pow_succ_r by lia.
    + rewrite Hc. cbn [Zdigits2 digits2_pos Pos.succ].
      replace (fexp prec emax (54 + (ex + (d - 53))) - (ex + (d - 53))) with 1
        by (unfold fexp, SpecFloat.emin, prec, emax; lia).
      cbn. replace (ex + (d - 53) + 1) with (ex + (d - 52)) by lia.
      reflexivity.
  - (* no carry *)
    assert (Hpos : 0 < m'') by lia.
    destruct m'' as [|m|m] eqn:Em; try lia.
    exists m, (d - 53). split; [now left|]. split; [lia|]. split.
    + fold P. lia.
    + rewrite (Zdigits2_unique (Zpos m) 53) by (simpl; lia).
      replace (fexp prec emax (53 + (ex + (d - 53))) - (ex + (d - 53))) with 0
        by (unfold fexp, SpecFloat.emin, prec, emax; lia).
      cbn. reflexivity.
Qed.

Lemma Prim2SF_1e6 : Prim2SF 1e6 = S754_finite false m1e6 e1e6.
Proof. reflexivity. Qed.

(** Multiplication of a normal number by 1e6, away from overflow. *)
Lemma SFmul_1e6 (sg : bool) (m : positive) (e : Z) :
  2 ^ 52 <= Zpos m < 2 ^ 53 -> -1049 <= e <= 944 ->
  exists mu k,
    (k = 52 \/ k = 53 \/ k = 54)
    /\ 2 ^ 52 <= Zpos mu < 2 ^ 53
    /\ - (Zpos m * Zpos m1e6)
       <= 2 ^ 53 * (Zpos mu * 2 ^ k - Zpos m * Zpos m1e6)
       <= Zpos m * Zpos m1e6
    /\ SFmul prec emax (S754_finite sg m e) (S754_finite false m1e6 e1e6)
       = S754_finite sg mu (e - 33 + k).
Proof.
  intros Hm He. cbn [SFmul]. rewrite xorb_false_r.
  change (2 ^ 52) with 4503599627370496 in *.
  change (2 ^ 53) with 9007199254740992 in *.
  assert (Hloc : located (Zpos (m * m1e6)) 1
                   (shr_record_of_loc (Zpos (m * m1e6)) loc_Exact)).
  { unfold located. cbn [shr_record_of_loc shr_m shr_r shr_s]. lia. }
  assert (Hd : exists d, (d = 105 \/ d = 106)
                         /\ 2 ^ (d - 1) <= Zpos (m * m1e6) < 2 ^ d).
  { rewrite Pos2Z.inj_mul. unfold m1e6.
    destruct (Z_lt_le_dec (Zpos m * 8589934592000000) (2 ^ 105)) as [H|H];
      [exists 105|exists 106]; (split; [tauto|]);
      cbn [Z.sub Z.add Z.opp Z.pos_sub Pos.pred_double] in *;
      change (2 ^ 104) with 20282409603651670423947251286016 in *;
      change (2 ^ 105) with 40564819207303340847894502572032 in *;
      change (2 ^ 106) with 81129638414606681695789005144064 in *;
      lia. }
  destruct Hd as (d & Hd & Hb).
  destruct (binary_round_aux_normal sg (Zpos (m * m1e6)) (e + e1e6) loc_Exact
              (Zpos (m * m1e6)) 1 d Hloc Hb ltac:(lia)
              ltac:(unfold e1e6; lia))
    as (mu & k & Hk & Hmu & Herr & ->).
  exists mu, k.
  rewrite Pos2Z.inj_mul in *.
  assert (Hk' : k = 52 \/ k = 53 \/ k = 54) by lia.
  split; [exact Hk'|]. split; [exact Hmu|]. split.
  - destruct Hd as [-> | ->]; destruct Hk' as [-> | [-> | ->]]; try lia;
      cbn [Z.sub Z.add Z.opp Z.pos_sub Pos.pred_double] in *;
      change (2 ^ 52) with 4503599627370496 in *;
      change (2 ^ 53) with 9007199254740992 in *;
      change (2 ^ 54) with 18014398509481984 in *;
      change (2 ^ 104) with 20282409603651670423947251286016 in *;
      change (2 ^ 105) with 40564819207303340847894502572032 in *;
      change (2 ^ 106) with 81129638414606681695789005144064 in *;
      lia.
  - unfold e1e6. replace (e + -33 + k) with (e - 33 + k) by lia.
    destruct (Z.leb_spec (e - 33 + k) 971); [reflexivity|lia].
Qed.

Lemma new_location_located (q r D N : Z) :
  0 < D -> 0 <= q -> N = D * q + r -> 0 <= r < D ->
  located N D (shr_record_of_loc q (new_location D r)).
Proof.
  intros HD Hq HN Hr. unfold new_location, new_location_even, new_location_odd.
  unfold located.
  destruct (Z.even D) eqn:Ev; destruct (Z.eqb_spec r 0) as [Hr0|Hr0].
  - cbn [shr_record_of_loc shr_m shr_r shr_s]. lia.
  - destruct (Z.compare_spec (2 * r) D);
      cbn [shr_record_of_loc shr_m shr_r shr_s]; lia.
  - cbn [shr_record_of_loc shr_m shr_r shr_s]. lia.
  - assert (Ho : Z.odd D = true) by (rewrite <- Z.negb_even, Ev; reflexivity).
    apply Z.odd_spec in Ho. destruct Ho as [k Hk].
    destruct (Z.compare_spec (2 * r + 1) D);
      cbn [shr_record_of_loc shr_m shr_r shr_s]; lia.
Qed.

(** Division of a normal number by 1e6, away from underflow. *)
Lemma SFdiv_1e6 (sg : bool) (mu : positive) (eu : Z) :
  2 ^ 52 <= Zpos mu < 2 ^ 53 -> -1054 <= eu <= 989 ->
  exists mb k,
    (k = 0 \/ k = 1)
    /\ 2 ^ 52 <= Zpos mb < 2 ^ 53
    /\ - (Zpos mu * 2 ^ 53)
       <= 2 ^ 53 * (Zpos mb * 2 ^ k * Zpos m1e6 - Zpos mu * 2 ^ 53)
       <= Zpos mu * 2 ^ 53
    /\ SFdiv prec emax (S754_finite sg mu eu) (S754_finite false m1e6 e1e6)
       = S754_finite sg mb (eu - 20 + k).
Proof.
  intros Hm He. cbn [SFdiv]. rewrite xorb_false_r.
  unfold SFdiv_core_binary.
  rewrite (Zdigits2_unique (Zpos mu) 53) by (simpl; lia).
  change (Zdigits2 (Zpos m1e6)) with 53. unfold e1e6.
  replace (Z.min (fexp prec emax (53 + eu - (53 + -33))) (eu - -33))
    with (eu - 20)
    by (unfold fexp, SpecFloat.emin, prec, emax; lia).
  replace (eu - -33 - (eu - 20)) with 53 by lia.
  rewrite Z.shiftl_mul_pow2 by lia.
  pose proof (Z_div_mod (Zpos mu * 2 ^ 53) (Zpos m1e6) eq_refl) as Hdiv.
  destruct (Z.div_eucl (Zpos mu * 2 ^ 53) (Zpos m1e6)) as [q r].
  destruct Hdiv as [Hq Hr].
  change (2 ^ 52) with 4503599627370496 in *.
  change (2 ^ 53) with 9007199254740992 in *.
  unfold m1e6 in *.
  assert (Hqb : 4503599627370496 <= q < 18014398509481984) by lia.
  assert (Hloc : located (Zpos mu * 9007199254740992) 8589934592000000
                   (shr_record_of_loc q (new_location 8589934592000000 r))).
  { apply new_location_located; lia. }
  assert (Hd : exists d, (d = 53 \/ d = 54) /\ 2 ^ (d - 1) <= q < 2 ^ d).
  { destruct (Z_lt_le_dec q 9007199254740992) as [H|H];
      [exists 53|exists 54]; (split; [tauto|]);
      cbn [Z.sub Z.add Z.opp Z.pos_sub Pos.pred_double] in *;
      change (2 ^ 52) with 4503599627370496 in *;
      change (2 ^ 53) with 9007199254740992 in *;
      change (2 ^ 54) with 18014398509481984 in *;
      lia. }
  destruct Hd as (d & Hd & Hb).
  destruct (binary_round_aux_normal sg q (eu - 20) _ _ _ d Hloc Hb
              ltac:(lia) ltac:(lia))
    as (mb & k & Hk & Hmb & Herr & ->).
  exists mb, k.
  assert (Hk' : k = 0 \/ k = 1 \/ k = 2) by lia.
  change (2 ^ 52) with 4503599627370496 in *.
  change (2 ^ 53) with 9007199254740992 in *.
  assert (Hk2 : k <> 2).
  { intros ->. destruct Hd as [-> | ->]; [lia|].
    cbn [Z.sub Z.add Z.opp Z.pos_sub Pos.pred_double] in *.
    change (2 ^ 1) with 2 in *. change (2 ^ 2) with 4 in *. lia. }
  split; [lia|]. split; [exact Hmb|]. split.
  - destruct Hd as [-> | ->]; destruct Hk' as [-> | [-> | ->]]; try lia;
      cbn [Z.sub Z.add Z.opp Z.pos_sub Pos.pred_double] in *;
      change (2 ^ 0) with 1 in *; change (2 ^ 1) with 2 in *;
      change (2 ^ 53) with 9007199254740992 in *;
      change (2 ^ 54) with 18014398509481984 in *;
      lia.
  - destruct (Z.leb_spec (eu - 20 + k) 971); [reflexivity|lia].
Qed.

Section Values.

Local Open Scope Q_scope.

Lemma Qabs_inject_Z (z : Z) : Qabs (inject_Z z) = inject_Z (Z.abs z).
Proof. reflexivity. Qed.

Lemma close_scaled (X Y t : Q) (a b : Z) :
  0 < t -> X == inject_Z a * t -> Y == inject_Z b * t ->
  (Z.abs (a - b) * 2 ^ 51 <= Z.abs b)%Z ->
  Qabs (X - Y) <= (1 # 2251799813685248) * Qabs Y.
Proof.
  intros Ht HX HY H. rewrite HX, HY.
  assert (E : inject_Z a * t - inject_Z b * t == inject_Z (a - b) * t).
  { unfold Zminus. rewrite inject_Z_plus, inject_Z_opp. ring. }
  rewrite E, !Qabs_Qmult, !Qabs_inject_Z, (Qabs_pos t) by now apply Qlt_le_weak.
  rewrite Qmult_assoc. apply Qmult_le_compat_r; [|now apply Qlt_le_weak].
  unfold Qle, Qmult, inject_Z. cbn [Qnum Qden].
  change (2 ^ 51)%Z with 2251799813685248%Z in H. lia.
Qed.

Lemma SF2Q_finite_shift (sg : bool) (m : positive) (e J : Z) :
  (0 <= J)%Z ->
  SF2Q (S754_finite sg m (e + J))
  == inject_Z (cond_Zopp sg (Zpos m * 2 ^ J)%Z) * 2 ^ e.
Proof.
  intros HJ. unfold SF2Q.
  rewrite Qpower_plus by (intros H; discriminate H).
  assert (E : inject_Z (cond_Zopp sg (Zpos m * 2 ^ J)%Z)
              == inject_Z (cond_Zopp sg (Zpos m)) * 2 ^ J).
  { rewrite <- (Zpower_Qpower 2 J HJ). change (inject_Z 2) with 2.
    destruct sg; cbn [cond_Zopp];
      rewrite <- ?Z.mul_opp_l, inject_Z_mult; reflexivity. }
  rewrite E. ring.
Qed.

End Values.

(** A normal number times 1e6 and then divided by 1e6, both rounded. *)
Lemma SF_round_trip_1e6 (sg : bool) (m : positive) (e : Z) :
  2 ^ 52 <= Zpos m < 2 ^ 53 -> -1049 <= e <= 944 ->
  exists u b,
    SFmul prec emax (S754_finite sg m e) (S754_finite false m1e6 e1e6) = u
    /\ SFdiv prec emax u (S754_finite false m1e6 e1e6) = b
    /\ (Qabs (SF2Q b - SF2Q (S754_finite sg m e))
        <= (1 # 2251799813685248) * Qabs (SF2Q (S754_finite sg m e)))%Q.
Proof.
  intros Hm He.
  destruct (SFmul_1e6 sg m e Hm He) as (mu & k & Hk & Hmu & Ha & Hu).
  destruct (SFdiv_1e6 sg mu (e - 33 + k) Hmu ltac:(lia))
    as (mb & kb & Hkb & Hmb & Hb & Hq).
  eexists. eexists. split; [exact Hu|]. split; [exact Hq|].
  set (J := k + kb - 52).
  replace (e - 33 + k - 20 + kb) with (e - 1 + J) by (unfold J; lia).
  apply close_scaled with (t := (2 ^ (e - 1))%Q)
                          (a := cond_Zopp sg (Zpos mb * 2 ^ J))
                          (b := cond_Zopp sg (Zpos m * 2 ^ 1)).
  - apply Qpower_0_lt. reflexivity.
  - apply SF2Q_finite_shift. unfold J. lia.
  - replace e with (e - 1 + 1) at 1 by lia. apply SF2Q_finite_shift. lia.
  - clear Hu Hq. unfold m1e6 in *. unfold J.
    destruct Hk as [-> | [-> | ->]]; destruct Hkb as [-> | ->];
      cbn [Z.sub Z.add Z.opp Z.pos_sub Pos.pred_double Pos.add Pos.succ
           Pos.pred] in *;
      change (2 ^ 0) with 1 in *; change (2 ^ 1) with 2 in *;
      change (2 ^ 51) with 2251799813685248 in *;
      change (2 ^ 52) with 4503599627370496 in *;
      change (2 ^ 53) with 9007199254740992 in *;
      change (2 ^ 54) with 18014398509481984 in *;
      destruct sg; cbn [cond_Zopp]; lia.
Qed.

(** A number between 1e-300 and 1e300 in magnitude is normal. *)
Lemma Prim2SF_in_range (s : float) :
  (1e-300 <=? abs s)%float = true -> (abs s <=? 1e300)%float = true ->
  exists sg m e,
    Prim2SF s = S754_finite sg m e
    /\ 2 ^ 52 <= Zpos m < 2 ^ 53 /\ -1049 <= e <= 944.
Proof.
  rewrite !leb_spec, abs_spec. intros Hl Hu.
  pose proof (Prim2SF_valid s) as Hv.
  destruct (Prim2SF s) as [sg|sg| |sg m e]; try discriminate.
  exists sg, m, e. split; [reflexivity|].
  change (Prim2SF 1e-300) with (S754_finite false 6032057205060441 (-1049)) in Hl.
  change (Prim2SF 1e300) with (S754_finite false 6724873095247260 944) in Hu.
  cbn [SFabs] in Hl, Hu. unfold SFleb, SFcompare in Hl, Hu.
  assert (He : -1049 <= e <= 944).
  { split.
    - destruct (Z.compare_spec (-1049) e); try lia; discriminate.
    - destruct (Z.compare_spec e 944); try lia; discriminate. }
  split; [|exact He].
  cbn [valid_binary] in Hv. unfold bounded, canonical_mantissa in Hv.
  apply andb_prop in Hv. destruct Hv as [Hc _]. apply Z.eqb_eq in Hc.
  unfold fexp, SpecFloat.emin, prec, emax in Hc.
  assert (Hd : Zpos (digits2_pos m) = 53) by lia.
  pose proof (digits2_pos_bounds m) as Hb. rewrite Hd in Hb. exact Hb.
Qed.

(** Seconds to microseconds and back: the result is within one part in
    [2 ^ 51] of the line period. *)
Lemma round_trip_1e6 (s : float) :
  (1e-300 <=? abs s)%float = true -> (abs s <=? 1e300)%float = true ->
  (Qabs (F2Q (s * 1e6 / 1e6) - F2Q s)
   <= (1 # 2251799813685248) * Qabs (F2Q s))%Q.
Proof.
  intros Hl Hu.
  destruct (Prim2SF_in_range s Hl Hu) as (sg & m & e & Hs & Hm & He).
  destruct (SF_round_trip_1e6 sg m e Hm He) as (u & b & Hu' & Hb & H).
  unfold F2Q. rewrite div_spec, mul_spec, Prim2SF_1e6, Hs.
  unfold SF64div, SF64mul. rewrite Hu', Hb. exact H.
Qed.

End Binary64Facts.

(** ** The header row *)

Lemma header_row_inv (key : Key) (scan : Scanreader.Scan) (hdr : ScanInfo_row) :
  header_row key scan = Return hdr ->
  exists x0 y0,
    nth_error (Scanreader.motor_position_at_zero scan) 0 = Some x0
    /\ nth_error (Scanreader.motor_position_at_zero scan) 1 = Some y0
    /\ hdr = {| scan_key := key;
                nfields := Scanreader.num_fields scan;
                nchannels := Scanreader.num_channels scan;
                ndepths := Scanreader.num_scanning_depths scan;
                nframes := Scanreader.num_frames scan;
                nrois := if Scanreader.is_multiROI scan
                         then Scanreader.num_rois scan else 0;
                x := x0; y := y0;
                fps := Scanreader.fps scan;
                bidirectional := Scanreader.is_bidirectional scan;
                usecs_per_line := Scanreader.seconds_per_line scan * 1e6;
                fill_fraction := Scanreader.temporal_fill_fraction scan |}.
Proof.
  unfold header_row. intros H. bind_inv H. injection H as <-.
  apply subscript_Return in E, E0. eauto.
Qed.

(** C6. The header row stores the line period in microseconds, the
    reader's seconds per line times 1e6, and the fill fraction and the
    bidirectional flag as the reader reports them. For a line period
    between 1e-300 and 1e300 seconds in magnitude, the stored value
    divided by 1e6 is within one part in [2 ^ 51] of the seconds per line,
    both taken as rationals. *)
Theorem line_period_microseconds
    (get_root_data_dir : string) (get_scan_image_files : Key -> list string)
    (read_scan : list string -> outcome Scanreader.Scan)
    (key : Key) (db : DB) (scan : Scanreader.Scan) (hdr : ScanInfo_row) :
  read_scan (get_scan_image_files key) = Return scan ->
  header_row key scan = Return hdr ->
  ScanInfo (fst (make get_root_data_dir get_scan_image_files read_scan key db))
  = ScanInfo db ++ [hdr]
  /\ usecs_per_line hdr = (Scanreader.seconds_per_line scan * 1e6)%float
  /\ fill_fraction hdr = Scanreader.temporal_fill_fraction scan
  /\ bidirectional hdr = Scanreader.is_bidirectional scan
  /\ ((1e-300 <=? abs (Scanreader.seconds_per_line scan))%float = true ->
      (abs (Scanreader.seconds_per_line scan) <=? 1e300)%float = true ->
      (Qabs (Binary64.F2Q (usecs_per_line hdr / 1e6)
             - Binary64.F2Q (Scanreader.seconds_per_line scan))
       <= (1 # 2251799813685248)
          * Qabs (Binary64.F2Q (Scanreader.seconds_per_line scan)))%Q).
Proof.
  intros Hs Hh. split; [eapply make_ScanInfo; eassumption|].
  apply header_row_inv in Hh. destruct Hh as (x0 & y0 & _ & _ & ->).
  cbn [usecs_per_line fill_fraction bidirectional].
  repeat (split; [reflexivity|]).
  apply Binary64Facts.round_trip_1e6.
Qed.

Lemma line_period_microseconds_witness :
  exists hdr,
    header_row (sample_key 1) plane_scan = Return hdr
    /\ usecs_per_line hdr = 62.5%float
    /\ fill_fraction hdr = 0.75%float
    /\ bidirectional hdr = true
    /\ (Qabs (Binary64.F2Q (usecs_per_line hdr / 1e6)
              - Binary64.F2Q 0.0000625)
        <= (1 # 2251799813685248) * Qabs (Binary64.F2Q 0.0000625))%Q.
Proof.
  eexists. split; [reflexivity|].
  destruct (line_period_microseconds sample_root sample_files
              (fun _ => Return plane_scan) (sample_key 1) empty_db
              plane_scan _ eq_refl eq_refl) as (_ & Hu & Hf & Hb & Hq).
  split; [exact Hu|]. split; [exact Hf|]. split; [exact Hb|].
  exact (Hq eq_refl eq_refl).
Defined.

(** C8, as the code has it. The header row holds the motor's x and y zero
    and nothing else of the motor position: a scan that differs in the
    motor's z zero alone gets the same header row. *)
Theorem header_motor_zero (key : Key) (scan : Scanreader.Scan)
    (hdr : ScanInfo_row) (x_zero y_zero z_zero : float) :
  Scanreader.motor_position_at_zero scan = [x_zero; y_zero; z_zero] ->
  header_row key scan = Return hdr ->
  x hdr = x_zero /\ y hdr = y_zero
  /\ forall z', header_row key (with_motor [x_zero; y_zero; z'] scan) = Return hdr.
Proof.
  intros Hz Hh. apply header_row_inv in Hh.
  destruct Hh as (x0 & y0 & Hx & Hy & ->). rewrite Hz in Hx, Hy.
  injection Hx as <-. injection Hy as <-. simpl.
  auto.
Qed.

Lemma header_motor_zero_witness :
  exists hdr,
    header_row (sample_key 1) plane_scan = Return hdr
    /\ x hdr = 10%float /\ y hdr = 20%float
    /\ forall z', header_row (sample_key 1)
                    (with_motor [10; 20; z']%float plane_scan) = Return hdr.
Proof.
  eexists. split; [reflexivity|].
  apply (header_motor_zero (sample_key 1) plane_scan _ 10 20 0); reflexivity.
Defined.

(** C8 as it is stated fails: the motor's z zero cannot be read off the
    header row. The sample single-plane scan and the same scan with its z
    zero at 30 microns have the same header row. *)
Lemma header_row_omits_motor_z :
  header_row (sample_key 1) plane_scan
  = header_row (sample_key 1) (with_motor [10; 20; 30]%float plane_scan)
  /\ ~ (exists motor_zero_of : ScanInfo_row -> list float,
          forall key scan hdr,
            header_row key scan = Return hdr ->
            motor_zero_of hdr = Scanreader.motor_position_at_zero scan).
Proof.
  split; [reflexivity|]. intros [g Hg].
  destruct (header_row (sample_key 1) plane_scan) as [hdr|] eqn:Eh;
    [|discriminate].
  pose proof (Hg (sample_key 1) plane_scan hdr Eh) as H1.
  pose proof (Hg (sample_key 1) (with_motor [10; 20; 30]%float plane_scan)
                hdr Eh) as H2.
  rewrite H1 in H2.
  apply (f_equal (fun l => match l with
                           | [_; _; z] => PrimFloat.eqb z 0
                           | _ => false
                           end)) in H2.
  vm_compute in H2. discriminate.
Qed.

(** ** Runs of [make] that end in an exception, or do not *)

Lemma scan_files_Raise (root : Pathlib.PurePath) (fs : list string) (e : exn) :
  scan_files root fs = Raise e ->
  exists f, In f fs
            /\ e = NotRelativeError (Pathlib.as_posix (Pathlib.Path f))
                                    (Pathlib.format_parsed_parts root).
Proof.
  unfold scan_files. induction fs as [|f fs IH]; simpl; [discriminate|].
  unfold Pathlib.relative_to at 1.
  destruct (_ && _); simpl.
  - destruct (comprehension _ fs) as [ys|e'] eqn:Ec; simpl; [discriminate|].
    intros H. injection H as <-.
    destruct (IH eq_refl) as (f' & Hin & He). eauto.
  - intros H. injection H as <-. eauto.
Qed.

Lemma scan_files_outside (root : Pathlib.PurePath) (fs : list string) :
  Exists (fun f => exists e,
              Pathlib.relative_to (Pathlib.Path f) root = Raise e) fs ->
  exists f, In f fs
            /\ scan_files root fs
               = Raise (NotRelativeError (Pathlib.as_posix (Pathlib.Path f))
                                         (Pathlib.format_parsed_parts root)).
Proof.
  intros H.
  destruct (comprehension_raises
              (fun f => (r <- Pathlib.relative_to (Pathlib.Path f) root ;;
                         Return (Pathlib.as_posix r))%py) fs) as [e He].
  - eapply Exists_impl; [|exact H]. intros f [e Hf]. exists e. now rewrite Hf.
  - destruct (scan_files_Raise root fs e He) as (f & Hin & ->). eauto.
Qed.




(** The test of [relative_to], on the roots and the names as written. *)
Lemma relative_to_Raise_iff (p other : Pathlib.PurePath) :
  (exists e, Pathlib.relative_to p other = Raise e)
  <-> Pathlib.root p <> Pathlib.root other
      \/ firstn (List.length (Pathlib.names other)) (Pathlib.names p)
         <> Pathlib.names other.
Proof.
  unfold Pathlib.relative_to, Pathlib.string_list_eqb.
  destruct (String.eqb_spec (Pathlib.root p) (Pathlib.root other)) as [Hr|Hr];
    simpl.
  - destruct (list_eq_dec _ _ _) as [Hn|Hn]; split.
    + intros [e H]. discriminate.
    + intros [H|H]; contradiction.
    + intros _. right. exact Hn.
    + intros _. eauto.
  - split; [intros _; left; exact Hr|]. intros _. eauto.
Qed.

(** The exception of [scan_files] is the one of [relative_to] for a file
    of the list. *)
Lemma scan_files_first_failure (root : Pathlib.PurePath) (fs : list string)
    (e : exn) :
  scan_files root fs = Raise e ->
  exists f, In f fs /\ Pathlib.relative_to (Pathlib.Path f) root = Raise e.
Proof.
  unfold scan_files. intros H. apply comprehension_Raise_inv in H.
  destruct H as (f & Hin & Hf). exists f. split; [exact Hin|].
  destruct (Pathlib.relative_to _ _) as [r|e']; simpl in Hf; congruence.
Qed.

(** C2, as the code has it. A file is tested as [relative_to] does, on the
    paths as written: the root of the root data directory and its names
    have to begin those of the file. When a file of the scan fails the
    test, [make] ends in an exception and inserts no file row. When the
    scan was read and its header and field rows were built, the exception
    is the one of [relative_to] for a file that fails the test, and it is
    raised after the header row and the field rows have been inserted. *)
Theorem make_file_outside_root
    (get_root_data_dir : string) (get_scan_image_files : Key -> list string)
    (read_scan : list string -> outcome Scanreader.Scan)
    (key : Key) (db : DB) :
  let outside f :=
    Pathlib.root (Pathlib.Path f)
    <> Pathlib.root (Pathlib.Path get_root_data_dir)
    \/ firstn (List.length (Pathlib.names (Pathlib.Path get_root_data_dir)))
              (Pathlib.names (Pathlib.Path f))
       <> Pathlib.names (Pathlib.Path get_root_data_dir) in
  Exists outside (get_scan_image_files key) ->
  (exists e,
      snd (make get_root_data_dir get_scan_image_files read_scan key db)
      = Raise e)
  /\ ScanFile (fst (make get_root_data_dir get_scan_image_files read_scan key db))
     = ScanFile db
  /\ forall scan hdr rows,
       read_scan (get_scan_image_files key) = Return scan ->
       header_row key scan = Return hdr ->
       field_rows key scan = Return rows ->
       exists f,
         In f (get_scan_image_files key)
         /\ outside f
         /\ make get_root_data_dir get_scan_image_files read_scan key db
            = (mkDB (ScanInfo db ++ [hdr]) (Field db ++ rows) (ScanFile db),
               Raise (NotRelativeError
                        (Pathlib.as_posix (Pathlib.Path f))
                        (Pathlib.format_parsed_parts
                           (Pathlib.Path get_root_data_dir)))).
Proof.
  intros outside Hout.
  assert (Hex : Exists (fun f => exists e,
                          Pathlib.relative_to (Pathlib.Path f)
                            (Pathlib.Path get_root_data_dir) = Raise e)
                  (get_scan_image_files key)).
  { eapply Exists_impl; [|exact Hout]. intros f Hf.
    apply relative_to_Raise_iff. exact Hf. }
  destruct (scan_files_outside _ _ Hex) as (f0 & _ & Hf0).
  destruct (scan_files_first_failure _ _ _ Hf0) as (f & Hin & Hrel).
  assert (Hf : outside f).
  { apply relative_to_Raise_iff. eauto. }
  assert (He : NotRelativeError (Pathlib.as_posix (Pathlib.Path f0))
                 (Pathlib.format_parsed_parts (Pathlib.Path get_root_data_dir))
               = NotRelativeError (Pathlib.as_posix (Pathlib.Path f))
                   (Pathlib.format_parsed_parts
                      (Pathlib.Path get_root_data_dir))).
  { unfold Pathlib.relative_to in Hrel.
    destruct (_ && _); [discriminate|]. congruence. }
  rewrite He in Hf0. clear He Hrel f0.
  assert (G : forall scan hdr rows,
             read_scan (get_scan_image_files key) = Return scan ->
             header_row key scan = Return hdr ->
             field_rows key scan = Return rows ->
             make get_root_data_dir get_scan_image_files read_scan key db
             = (mkDB (ScanInfo db ++ [hdr]) (Field db ++ rows) (ScanFile db),
                Raise (NotRelativeError
                         (Pathlib.as_posix (Pathlib.Path f))
                         (Pathlib.format_parsed_parts
                            (Pathlib.Path get_root_data_dir))))).
  { intros scan hdr rows Hs Hh Hr.
    rewrite (make_after_fields _ _ _ key db scan hdr rows Hs Hh Hr), Hf0.
    reflexivity. }
  assert (S : (exists e,
      snd (make get_root_data_dir get_scan_image_files read_scan key db)
      = Raise e)
    /\ ScanFile (fst (make get_root_data_dir get_scan_image_files read_scan key db))
       = ScanFile db).
  { destruct (read_scan (get_scan_image_files key)) as [scan|e] eqn:Hs.
    - destruct (header_row key scan) as [hdr|e] eqn:Hh.
      + destruct (field_rows key scan) as [rows|e] eqn:Hr.
        * rewrite (G scan hdr rows eq_refl Hh Hr). simpl. eauto.
        * unfold make, bindM, eval, insert1. rewrite Hs, Hh, Hr. simpl. eauto.
      + unfold make, bindM, eval. rewrite Hs, Hh. simpl. eauto.
    - unfold make, bindM, eval. rewrite Hs. simpl. eauto. }
  destruct S as [S1 S2]. split; [exact S1|]. split; [exact S2|].
  intros scan hdr rows Hs Hh Hr. exists f. split; [exact Hin|].
  split; [exact Hf|]. exact (G scan hdr rows Hs Hh Hr).
Qed.

Lemma make_file_outside_root_witness :
  (exists e,
      snd (make sample_root sample_files (fun _ => Return plane_scan)
             (sample_key 2) empty_db) = Raise e)
  /\ ScanFile (fst (make sample_root sample_files (fun _ => Return plane_scan)
                      (sample_key 2) empty_db)) = []
  /\ forall scan hdr rows,
       Return plane_scan = Return scan ->
       header_row (sample_key 2) scan = Return hdr ->
       field_rows (sample_key 2) scan = Return rows ->
       exists f,
         In f (sample_files (sample_key 2))
         /\ (Pathlib.root (Pathlib.Path f)
             <> Pathlib.root (Pathlib.Path sample_root)
             \/ firstn (List.length (Pathlib.names (Pathlib.Path sample_root)))
                       (Pathlib.names (Pathlib.Path f))
                <> Pathlib.names (Pathlib.Path sample_root))
         /\ make sample_root sample_files (fun _ => Return plane_scan)
              (sample_key 2) empty_db
            = (mkDB ([] ++ [hdr]) ([] ++ rows) [],
               Raise (NotRelativeError
                        (Pathlib.as_posix (Pathlib.Path f))
                        (Pathlib.format_parsed_parts
                           (Pathlib.Path sample_root)))).
Proof.
  apply (make_file_outside_root sample_root sample_files
           (fun _ => Return plane_scan) (sample_key 2) empty_db).
  apply Exists_cons_tl, Exists_cons_hd. right. discriminate.
Defined.

(** C2 as it is stated fails: scan 2 of the sample has its second file
    outside the root; [make] raises for it, and the tables then hold the
    header row and the three field rows of the scan. *)
Lemma make_inserts_before_paths :
  let run := make sample_root sample_files (fun _ => Return plane_scan)
               (sample_key 2) empty_db in
  snd run = Raise (NotRelativeError "/mnt/m4/scan2_00002.tif" "/data")
  /\ List.length (ScanInfo (fst run)) = 1%nat
  /\ List.length (Field (fst run)) = 3%nat
  /\ ScanFile (fst run) = []
  /\ fst run <> empty_db.
Proof. repeat split. discriminate. Qed.

(** * Further properties *)

(** ** When the field rows can be built *)

Lemma subscript_Raise {A : Type} (xs : list A) (i : Z) (e : exn) :
  subscript xs i = Raise e -> e = IndexError.
Proof.
  unfold subscript. destruct (nth_error xs (Z.to_nat i)); congruence.
Qed.

Ltac bind_raise H :=
  repeat match type of H with
    | bind ?m _ = Raise _ =>
        let E := fresh "E" in
        destruct m eqn:E; simpl in H;
        [|injection H as <-; eapply subscript_Raise; eassumption]
    end.

Lemma roi_field_row_Raise (key : Key) (scan : Scanreader.Scan)
    (zero : float * float * float) (i : Z) (e : exn) :
  roi_field_row key scan zero i = Raise e -> e = IndexError.
Proof.
  destruct zero as [[x0 y0] z0]. unfold roi_field_row. intros H.
  bind_raise H. discriminate.
Qed.

Lemma plane_field_row_Raise (key : Key) (scan : Scanreader.Scan)
    (zero : float * float * float) (i : Z) (e : exn) :
  plane_field_row key scan zero i = Raise e -> e = IndexError.
Proof.
  destruct zero as [[x0 y0] z0]. unfold plane_field_row. intros H.
  bind_raise H. discriminate.
Qed.

(** With the motor position unpacked, the only exception of [field_rows]
    is the [IndexError] of a list that is too short. *)
Lemma field_rows_Raise (key : Key) (scan : Scanreader.Scan)
    (x_zero y_zero z_zero : float) (e : exn) :
  Scanreader.motor_position_at_zero scan = [x_zero; y_zero; z_zero] ->
  field_rows key scan = Raise e -> e = IndexError.
Proof.
  intros Hz. rewrite (field_rows_unpacked key scan _ _ _ Hz).
  destruct (Scanreader.is_multiROI scan); intros H;
    apply comprehension_Raise_inv in H; destruct H as (i & _ & H).
  - eapply roi_field_row_Raise, H.
  - eapply plane_field_row_Raise, H.
Qed.

(** The last index of a non-empty range. *)
Lemma range_last (n : Z) :
  (0 < Z.to_nat n)%nat ->
  nth_error (range n) (Z.to_nat n - 1) = Some (n - 1).
Proof.
  intros H. rewrite range_nth by lia. f_equal. lia.
Qed.

Lemma nth_error_length {A : Type} (l : list A) (k : nat) (a : A) :
  nth_error l k = Some a -> (k < List.length l)%nat.
Proof. intros H. apply nth_error_Some. congruence. Qed.

Lemma field_rows_scan_ok (key : Key) (scan : Scanreader.Scan)
    (rows : list Field_row) :
  field_rows key scan = Return rows -> scan_ok scan = true.
Proof.
  intros H. unfold field_rows in H.
  destruct (unpack3 _) as [[[x0 y0] z0]|] eqn:Ez; simpl in H; [|discriminate].
  apply unpack3_Return in Ez. simpl in Ez.
  unfold scan_ok. rewrite Ez. simpl List.length. rewrite Nat.eqb_refl.
  simpl andb.
  destruct (Scanreader.is_multiROI scan).
  - destruct (Nat.eq_dec (Z.to_nat (Scanreader.num_fields scan)) 0) as [E0|E0].
    + rewrite E0. reflexivity.
    + destruct (comprehension_nth _ _ _ _ _ H
                  (range_last (Scanreader.num_fields scan) ltac:(lia)))
        as (r & _ & Hrow).
      apply roi_field_row_inv in Hrow.
      destruct Hrow as (h & w & uh & uw & f & d
                        & H1 & H2 & H3 & H4 & H5 & H6 & _).
      apply nth_error_length in H1, H2, H3, H4, H5, H6.
      repeat (apply andb_true_intro; split); apply Nat.leb_le; lia.
  - destruct (Nat.eq_dec (Z.to_nat (Scanreader.num_scanning_depths scan)) 0)
      as [E0|E0].
    + rewrite E0. reflexivity.
    + destruct (comprehension_nth _ _ _ _ _ H
                  (range_last (Scanreader.num_scanning_depths scan)
                     ltac:(lia)))
        as (r & _ & Hrow).
      apply plane_field_row_inv in Hrow.
      destruct Hrow as (dz & d & H1 & H2 & _).
      apply nth_error_length in H1, H2.
      repeat (apply andb_true_intro; split); apply Nat.leb_le; lia.
Qed.

(** X1. The field rows are built exactly for the scans whose motor
    position has three coordinates and whose lists, those read in the mode
    of the scan, have an entry for every index below the count. *)
Theorem field_rows_returns_iff (key : Key) (scan : Scanreader.Scan) :
  (exists rows, field_rows key scan = Return rows) <-> scan_ok scan = true.
Proof.
  split.
  - intros [rows H]. eapply field_rows_scan_ok, H.
  - apply field_rows_returns.
Qed.

(** X2. When a list of the scan is too short for its count, [make] raises
    [IndexError] once the header row is inserted, and inserts no field row
    at all, not even those of the indices that the lists cover. *)
Theorem make_short_list
    (get_root_data_dir : string) (get_scan_image_files : Key -> list string)
    (read_scan : list string -> outcome Scanreader.Scan)
    (key : Key) (db : DB) (scan : Scanreader.Scan)
    (x_zero y_zero z_zero : float) :
  read_scan (get_scan_image_files key) = Return scan ->
  Scanreader.motor_position_at_zero scan = [x_zero; y_zero; z_zero] ->
  scan_ok scan = false ->
  exists hdr,
    header_row key scan = Return hdr
    /\ make get_root_data_dir get_scan_image_files read_scan key db
       = (mkDB (ScanInfo db ++ [hdr]) (Field db) (ScanFile db),
          Raise IndexError).
Proof.
  intros Hs Hz Hok.
  destruct (header_row_of_unpack3 key scan (x_zero, y_zero, z_zero))
    as [hdr Hh]; [now rewrite Hz|].
  exists hdr. split; [exact Hh|].
  destruct (field_rows key scan) as [rows|e] eqn:Hr.
  - apply field_rows_scan_ok in Hr. congruence.
  - pose proof (field_rows_Raise key scan _ _ _ e Hz Hr) as ->.
    unfold make, bindM, eval, insert1. rewrite Hs, Hh, Hr. reflexivity.
Qed.

(** ** The motor position, and the runs that insert nothing *)

Lemma header_row_returns_iff (key : Key) (scan : Scanreader.Scan) :
  (exists hdr, header_row key scan = Return hdr)
  <-> (2 <= List.length (Scanreader.motor_position_at_zero scan))%nat.
Proof.
  unfold header_row, subscript.
  destruct (Scanreader.motor_position_at_zero scan) as [|a [|b l]]; simpl;
    split; try lia; try (intros [hdr H]; discriminate); eauto.
Qed.

Lemma header_row_Raise (key : Key) (scan : Scanreader.Scan) (e : exn) :
  header_row key scan = Raise e -> e = IndexError.
Proof.
  unfold header_row. intros H. bind_raise H. discriminate.
Qed.

(** X3. A motor position of fewer than two coordinates makes [make] raise
    [IndexError] with nothing inserted. One of two coordinates, or of more
    than three, makes it raise the [ValueError] of the unpacking after the
    header row is inserted, and no field row or file row follows. *)
Theorem make_motor_position
    (get_root_data_dir : string) (get_scan_image_files : Key -> list string)
    (read_scan : list string -> outcome Scanreader.Scan)
    (key : Key) (db : DB) (scan : Scanreader.Scan) :
  read_scan (get_scan_image_files key) = Return scan ->
  let n := List.length (Scanreader.motor_position_at_zero scan) in
  ((n < 2)%nat ->
   make get_root_data_dir get_scan_image_files read_scan key db
   = (db, Raise IndexError))
  /\ ((n = 2 \/ 3 < n)%nat ->
      exists hdr,
        header_row key scan = Return hdr
        /\ make get_root_data_dir get_scan_image_files read_scan key db
           = (mkDB (ScanInfo db ++ [hdr]) (Field db) (ScanFile db),
              Raise (UnpackError 3 n))).
Proof.
  intros Hs n. subst n. split; intros Hn.
  - destruct (header_row key scan) as [hdr|e] eqn:Hh.
    + assert (H : exists hdr, header_row key scan = Return hdr) by eauto.
      apply header_row_returns_iff in H. lia.
    + apply header_row_Raise in Hh as He. subst e.
      unfold make, bindM, eval. rewrite Hs, Hh. reflexivity.
  - destruct (proj2 (header_row_returns_iff key scan) ltac:(lia)) as [hdr Hh].
    exists hdr. split; [exact Hh|].
    unfold make, bindM, eval, insert1. rewrite Hs, Hh. simpl.
    unfold field_rows.
    destruct (Scanreader.motor_position_at_zero scan)
      as [|a [|b [|c [|d l]]]]; simpl in Hn; try lia; reflexivity.
Qed.

(** X4. When the scan cannot be read, or its header row cannot be built,
    [make] ends in that exception before its first insert: the tables are
    as they were. *)
Theorem make_fails_before_insert
    (get_root_data_dir : string) (get_scan_image_files : Key -> list string)
    (read_scan : list string -> outcome Scanreader.Scan)
    (key : Key) (db : DB) (e : exn) :
  read_scan (get_scan_image_files key) = Raise e
  \/ (exists scan,
         read_scan (get_scan_image_files key) = Return scan
         /\ header_row key scan = Raise e) ->
  make get_root_data_dir get_scan_image_files read_scan key db
  = (db, Raise e).
Proof.
  unfold make, bindM, eval.
  intros [Hs|(scan & Hs & Hh)]; rewrite Hs; [reflexivity|].
  rewrite Hh. reflexivity.
Qed.

(** ** The runs that return *)

Lemma scan_files_returns_iff (root : Pathlib.PurePath) (fs : list string) :
  (exists rels, scan_files root fs = Return rels)
  <-> Forall (fun f => exists r,
                  Pathlib.relative_to (Pathlib.Path f) root = Return r) fs.
Proof.
  unfold scan_files. split.
  - intros [rels H]. apply comprehension_Forall2 in H.
    induction H as [|f rel fs' rels' Hf _ IH]; constructor; [|exact IH].
    destruct (Pathlib.relative_to _ _) as [r|]; [eauto|discriminate].
  - intros H. apply comprehension_returns.
    eapply Forall_impl; [|exact H]. intros f [r Hr]. rewrite Hr. simpl. eauto.
Qed.

(** X5. A run of [make] that returns has read the scan, found its motor
    position and its lists as [scan_ok] asks, and found every file
    relative to the root data directory by the test of [relative_to]. *)
Theorem make_returns_only_if
    (get_root_data_dir : string) (get_scan_image_files : Key -> list string)
    (read_scan : list string -> outcome Scanreader.Scan)
    (key : Key) (db : DB) :
  snd (make get_root_data_dir get_scan_image_files read_scan key db)
  = Return tt ->
  exists scan,
    read_scan (get_scan_image_files key) = Return scan
    /\ scan_ok scan = true
    /\ Forall (fun f => exists r,
                   Pathlib.relative_to (Pathlib.Path f)
                     (Pathlib.Path get_root_data_dir) = Return r)
              (get_scan_image_files key).
Proof.
  intros H. unfold make, bindM, eval, insert1, Field_insert, ScanFile_insert
    in H.
  destruct (read_scan (get_scan_image_files key)) as [scan|] eqn:Hs;
    [|discriminate].
  destruct (header_row key scan) as [hdr|] eqn:Hh; [|discriminate].
  simpl in H.
  destruct (field_rows key scan) as [rows|] eqn:Hr; [|discriminate].
  simpl in H.
  destruct (scan_files _ _) as [fs|] eqn:Hf; [|discriminate].
  exists scan. split; [reflexivity|]. split.
  - eapply field_rows_scan_ok, Hr.
  - apply scan_files_returns_iff. eauto.
Qed.

(** X6. A run of [make] that returns has added one header row, as many
    field rows as the count of the scan's mode, and one file row for each
    file of the scan. *)
Theorem make_row_counts
    (get_root_data_dir : string) (get_scan_image_files : Key -> list string)
    (read_scan : list string -> outcome Scanreader.Scan)
    (key : Key) (db db' : DB) (scan : Scanreader.Scan) :
  read_scan (get_scan_image_files key) = Return scan ->
  make get_root_data_dir get_scan_image_files read_scan key db
  = (db', Return tt) ->
  List.length (ScanInfo db') = S (List.length (ScanInfo db))
  /\ List.length (Field db')
     = (List.length (Field db)
        + Z.to_nat (if Scanreader.is_multiROI scan
                    then Scanreader.num_fields scan
                    else Scanreader.num_scanning_depths scan))%nat
  /\ List.length (ScanFile db')
     = (List.length (ScanFile db)
        + List.length (get_scan_image_files key))%nat.
Proof.
  intros Hs H.
  unfold make, bindM, eval, insert1, Field_insert, ScanFile_insert in H.
  rewrite Hs in H.
  destruct (header_row key scan) as [hdr|] eqn:Hh; [|discriminate].
  simpl in H.
  destruct (field_rows key scan) as [rows|] eqn:Hr; [|discriminate].
  simpl in H.
  destruct (scan_files _ _) as [fs|] eqn:Hf; [|discriminate].
  injection H as <-. simpl.
  rewrite !length_app, length_map. simpl.
  rewrite (field_rows_length key scan rows Hr).
  unfold scan_files in Hf. apply comprehension_length in Hf. lia.
Qed.

Lemma field_rows_key (key : Key) (scan : Scanreader.Scan)
    (rows : list Field_row) :
  field_rows key scan = Return rows ->
  Forall (fun r => field_key r = key) rows.
Proof.
  intros H. unfold field_rows in H.
  destruct (unpack3 _) as [[[x0 y0] z0]|]; simpl in H; [|discriminate].
  apply Forall_forall. intros r Hin.
  destruct (Scanreader.is_multiROI scan);
    destruct (comprehension_In _ _ _ _ H Hin) as (i & _ & Hrow).
  - apply roi_field_row_inv in Hrow.
    destruct Hrow as (? & ? & ? & ? & ? & ? & _ & _ & _ & _ & _ & _ & ->).
    reflexivity.
  - apply plane_field_row_inv in Hrow.
    destruct Hrow as (? & ? & _ & _ & ->). reflexivity.
Qed.

(** X7. Whatever the outcome, [make] only appends: the rows that were in
    the three tables stay, in their order, and every row added carries the
    key that [make] was called with; at most one header row is added. *)
Theorem make_appends_rows_of_key
    (get_root_data_dir : string) (get_scan_image_files : Key -> list string)
    (read_scan : list string -> outcome Scanreader.Scan)
    (key : Key) (db : DB) :
  exists hs rs fs,
    fst (make get_root_data_dir get_scan_image_files read_scan key db)
    = mkDB (ScanInfo db ++ hs) (Field db ++ rs) (ScanFile db ++ fs)
    /\ (List.length hs <= 1)%nat
    /\ Forall (fun h => scan_key h = key) hs
    /\ Forall (fun r => field_key r = key) rs
    /\ Forall (fun f => file_key f = key) fs.
Proof.
  assert (Hid : db = mkDB (ScanInfo db ++ []) (Field db ++ [])
                       (ScanFile db ++ [])).
  { destruct db. simpl. now rewrite !app_nil_r. }
  unfold make, bindM, eval, insert1, Field_insert, ScanFile_insert.
  destruct (read_scan (get_scan_image_files key)) as [scan|] eqn:Hs.
  2:{ exists [], [], []. simpl. repeat split; auto. }
  destruct (header_row key scan) as [hdr|] eqn:Hh.
  2:{ exists [], [], []. simpl. repeat split; auto. }
  assert (Hk : scan_key hdr = key).
  { apply header_row_inv in Hh. destruct Hh as (? & ? & _ & _ & ->).
    reflexivity. }
  simpl.
  destruct (field_rows key scan) as [rows|] eqn:Hr.
  2:{ exists [hdr], [], []. simpl. rewrite !app_nil_r.
      repeat split; auto. }
  pose proof (field_rows_key key scan rows Hr) as Hrk. simpl.
  destruct (scan_files _ _) as [fs|] eqn:Hf.
  - exists [hdr], rows, (map (fun f => mkScanFile key f) fs). simpl.
    repeat split; auto.
    apply Forall_forall. intros f Hin. apply in_map_iff in Hin.
    destruct Hin as (x & <- & _). reflexivity.
  - exists [hdr], rows, []. simpl. rewrite app_nil_r. repeat split; auto.
Qed.

(** ** Pixel sizes and delay images *)

(** X8. In a multi-ROI scan the row of field [i] has the pixel height and
    width and the delay image that the reader lists at index [i]. *)
Theorem roi_field_pixels (key : Key) (scan : Scanreader.Scan)
    (rows : list Field_row) (i : Z) :
  Scanreader.is_multiROI scan = true ->
  field_rows key scan = Return rows ->
  0 <= i < Scanreader.num_fields scan ->
  exists r,
    nth_error rows (Z.to_nat i) = Some r
    /\ nth_error (Scanreader.field_heights scan) (Z.to_nat i)
       = Some (px_height r)
    /\ nth_error (Scanreader.field_widths scan) (Z.to_nat i)
       = Some (px_width r)
    /\ nth_error (Scanreader.field_offsets scan) (Z.to_nat i)
       = Some (delay_image r).
Proof.
  intros Hm Hr Hi. unfold field_rows in Hr.
  destruct (unpack3 _) as [[[x0 y0] z0]|]; simpl in Hr; [|discriminate].
  rewrite Hm in Hr.
  assert (Hk : nth_error (range (Scanreader.num_fields scan)) (Z.to_nat i)
               = Some i).
  { rewrite range_nth by lia. f_equal. lia. }
  destruct (comprehension_nth _ _ _ _ _ Hr Hk) as (r & Hnth & Hrow).
  apply roi_field_row_inv in Hrow.
  destruct Hrow as (h & w & uh & uw & f & d & Hh & Hw & _ & _ & _ & Hd & ->).
  eexists. split; [exact Hnth|]. simpl. auto.
Qed.

(** X9. In a single-plane scan every row has the one image height and
    width of the scan, in pixels and in microns, so that the rows differ in
    index, depth and delay image only; the row of plane [i] has the delay
    image that the reader lists at index [i]. *)
Theorem plane_field_pixels (key : Key) (scan : Scanreader.Scan)
    (rows : list Field_row) :
  Scanreader.is_multiROI scan = false ->
  field_rows key scan = Return rows ->
  (forall r, In r rows ->
     px_height r = Scanreader.image_height scan
     /\ px_width r = Scanreader.image_width scan
     /\ um_height r = Scanreader.image_height_in_microns scan
     /\ um_width r = Scanreader.image_width_in_microns scan)
  /\ (forall i, 0 <= i < Scanreader.num_scanning_depths scan ->
        exists r,
          nth_error rows (Z.to_nat i) = Some r
          /\ nth_error (Scanreader.field_offsets scan) (Z.to_nat i)
             = Some (delay_image r)).
Proof.
  intros Hm Hr. unfold field_rows in Hr.
  destruct (unpack3 _) as [[[x0 y0] z0]|]; simpl in Hr; [|discriminate].
  rewrite Hm in Hr. split.
  - intros r Hin.
    destruct (comprehension_In _ _ _ _ Hr Hin) as (i & _ & Hrow).
    apply plane_field_row_inv in Hrow.
    destruct Hrow as (dz & d & _ & _ & ->). simpl. auto.
  - intros i Hi.
    assert (Hk : nth_error (range (Scanreader.num_scanning_depths scan))
                   (Z.to_nat i) = Some i).
    { rewrite range_nth by lia. f_equal. lia. }
    destruct (comprehension_nth _ _ _ _ _ Hr Hk) as (r & Hnth & Hrow).
    apply plane_field_row_inv in Hrow.
    destruct Hrow as (dz & d & _ & Hd & ->).
    eexists. split; [exact Hnth|]. exact Hd.
Qed.

(** ** The file paths that are stored *)

Module StoredPaths.

Import Pathlib.
Local Open Scope string_scope.

Lemma scan_files_Forall2 (dir : PurePath) (files rels : list string) :
  scan_files dir files = Return rels ->
  Forall2 (fun f rel =>
             exists r, relative_to (Path f) dir = Return r
                       /\ rel = as_posix r) files rels.
Proof.
  intros H. unfold scan_files in H. apply comprehension_Forall2 in H.
  induction H as [|f rel fs rels' Hf _ IH]; constructor; [|exact IH].
  destruct (relative_to _ _) as [r|]; simpl in Hf; [|discriminate].
  injection Hf as <-. eauto.
Qed.

Lemma join_names_first (x : string) (ns : list string) :
  is_name x = true -> no_sep x = true ->
  exists c t, join (x :: ns) = String c t /\ Ascii.eqb c sep = false.
Proof.
  intros Hx Hs. destruct x as [|c x]; [discriminate|].
  simpl in Hs. destruct (Ascii.eqb c sep) eqn:Ec; [discriminate|].
  destruct ns as [|y ns]; simpl; eauto.
Qed.

(** The text of a relative path made of names: it is its own normal form
    and does not start with a slash. *)
Lemma as_posix_relative_normal (ns : list string) :
  names_ok ns ->
  as_posix (Path (as_posix (mkPath "" ns))) = as_posix (mkPath "" ns)
  /\ root (Path (as_posix (mkPath "" ns))) = ""
  /\ String.get 0 (as_posix (mkPath "" ns)) <> Some sep.
Proof.
  intros H. rewrite PathlibFacts.Path_as_posix_relative by exact H.
  split; [reflexivity|]. split; [reflexivity|].
  destruct ns as [|x ns]; [discriminate|].
  inversion H as [|? ? [Hx Hs] _]; subst.
  change (as_posix (mkPath "" (x :: ns))) with (join (x :: ns)).
  destruct (join_names_first x ns Hx Hs) as (c & t & -> & Hc).
  simpl. intros E. injection E as ->. discriminate.
Qed.

Lemma relative_to_names_ok (p other rel : PurePath) :
  names_ok (names p) -> relative_to p other = Return rel ->
  rel = mkPath "" (names rel) /\ names_ok (names rel).
Proof.
  intros Hok H. apply PathlibFacts.relative_to_Return in H.
  destruct H as (_ & _ & ->). simpl. split; [reflexivity|].
  now apply PathlibFacts.names_ok_skipn.
Qed.

End StoredPaths.

(** X10. Every file path that [make] stores is the text of a relative
    path in [pathlib]'s normal form: it does not start with a slash, and
    parsing it and writing it out again gives the same text. *)
Theorem stored_paths_relative (dir : Pathlib.PurePath)
    (files rels : list string) :
  scan_files dir files = Return rels ->
  Forall (fun rel =>
            Pathlib.root (Pathlib.Path rel) = ""%string
            /\ Pathlib.as_posix (Pathlib.Path rel) = rel
            /\ String.get 0 rel <> Some Pathlib.sep) rels.
Proof.
  intros H. apply StoredPaths.scan_files_Forall2 in H.
  induction H as [|f rel fs rels' (r & Hr & ->) _ IH]; constructor;
    [|exact IH].
  destruct (StoredPaths.relative_to_names_ok _ _ _
              (PathlibFacts.Path_names_ok f) Hr) as [-> Hok].
  destruct (StoredPaths.as_posix_relative_normal _ Hok) as (H1 & H2 & H3).
  auto.
Qed.

(** X11. Files that are different paths get different stored paths: no
    two of them meet on the primary key of [ScanInfo.ScanFile]. *)
Theorem stored_paths_distinct (get_root_data_dir : string)
    (files rels : list string) :
  scan_files (Pathlib.Path get_root_data_dir) files = Return rels ->
  NoDup (map Pathlib.Path files) ->
  NoDup rels.
Proof.
  intros H Hnd.
  assert (E : map Pathlib.Path files
              = map (Pathlib.joinpath (Pathlib.Path get_root_data_dir)) rels).
  { apply StoredPaths.scan_files_Forall2 in H.
    induction H as [|f rel fs rels' (r & Hr & ->) _ IH]; simpl;
      [reflexivity|].
    inversion Hnd; subst. f_equal; [|now apply IH].
    symmetry. eapply PathlibFacts.relative_to_joinpath; [|exact Hr].
    apply PathlibFacts.Path_names_ok. }
  rewrite E in Hnd. eapply NoDup_map_inv, Hnd.
Qed.

(** X12. A file that is the root data directory itself is not refused:
    it is stored as a single dot. *)
Theorem root_itself_stored_as_dot (get_root_data_dir : string) :
  scan_files (Pathlib.Path get_root_data_dir) [get_root_data_dir]
  = Return ["."%string].
Proof.
  unfold scan_files. simpl. unfold Pathlib.relative_to.
  rewrite String.eqb_refl, firstn_all. unfold Pathlib.string_list_eqb.
  destruct (list_eq_dec _ _ _) as [_|Hn]; [|now elim Hn].
  simpl. now rewrite skipn_all.
Qed.

Module FilesBelowRoot.

Import Pathlib.
Local Open Scope string_scope.

Lemma lstrip_app (d s : string) :
  snd (lstrip d) <> "" ->
  lstrip (d ++ s) = (fst (lstrip d), snd (lstrip d) ++ s).
Proof.
  induction d as [|c d IH]; simpl; [easy|].
  destruct (Ascii.eqb c sep) eqn:Ec.
  - destruct (lstrip d) as [n r] eqn:El. simpl. intros Hr.
    rewrite (IH Hr). reflexivity.
  - intros _. reflexivity.
Qed.

Lemma splitroot_app (d s : string) :
  snd (lstrip d) <> "" ->
  splitroot (d ++ s) = (fst (splitroot d), snd (splitroot d) ++ s).
Proof.
  intros H. destruct d as [|c d]; [now elim H|].
  unfold splitroot. cbn [append].
  destruct (Ascii.eqb c sep) eqn:Ec; [|reflexivity].
  change (String c (d ++ s)) with (String c d ++ s).
  rewrite (lstrip_app (String c d) s H).
  destruct (lstrip (String c d)) as [n r]. simpl.
  now destruct (Nat.eqb n 2).
Qed.

Lemma split_nonempty (s : string) : split s <> [].
Proof.
  destruct s as [|c s]; simpl; [discriminate|].
  destruct (Ascii.eqb c sep); [discriminate|].
  destruct (split s); discriminate.
Qed.

Lemma split_app (x t : string) :
  split (x ++ String sep t) = (split x ++ split t)%list.
Proof.
  induction x as [|c x IH]; simpl.
  - reflexivity.
  - destruct (Ascii.eqb c sep); rewrite IH; [reflexivity|].
    pose proof (split_nonempty x) as Hx.
    destruct (split x) as [|w ws]; [now elim Hx|]. reflexivity.
Qed.

(** The path of [d/t]: the root of [d], its names, and the names of [t]. *)
Lemma Path_below (d t : string) :
  snd (lstrip d) <> "" ->
  Path (d ++ String sep t)
  = mkPath (root (Path d))
           (names (Path d) ++ filter is_name (split t)).
Proof.
  intros H. unfold Path. rewrite (splitroot_app d _ H).
  destruct (splitroot d) as [r rel]. simpl.
  now rewrite split_app, filter_app.
Qed.

Lemma firstn_skipn_app {A : Type} (l l' : list A) :
  firstn (List.length l) (l ++ l') = l
  /\ skipn (List.length l) (l ++ l') = l'.
Proof.
  induction l as [|a l [IH1 IH2]]; simpl; [auto|].
  now rewrite IH1, IH2.
Qed.

End FilesBelowRoot.

(** X13. A file named by the root data directory, a slash and any text is
    accepted, provided the directory is not made of slashes alone, and it
    is stored under the names of the text: empty names and single dots are
    dropped, while a double dot stays, although it leads out of the
    directory. *)
Theorem file_below_root_accepted (get_root_data_dir tail : string) :
  snd (Pathlib.lstrip get_root_data_dir) <> ""%string ->
  scan_files (Pathlib.Path get_root_data_dir)
    [(get_root_data_dir ++ String Pathlib.sep tail)%string]
  = Return [Pathlib.as_posix
              (Pathlib.mkPath ""
                 (filter Pathlib.is_name (Pathlib.split tail)))].
Proof.
  intros H. unfold scan_files. simpl.
  rewrite (FilesBelowRoot.Path_below _ tail H).
  unfold Pathlib.relative_to. cbn [Pathlib.root Pathlib.names].
  rewrite String.eqb_refl.
  destruct (FilesBelowRoot.firstn_skipn_app
              (Pathlib.names (Pathlib.Path get_root_data_dir))
              (filter Pathlib.is_name (Pathlib.split tail))) as [-> ->].
  unfold Pathlib.string_list_eqb.
  destruct (list_eq_dec _ _ _) as [_|Hn]; [reflexivity|now elim Hn].
Qed.

Lemma file_below_root_accepted_witness :
  scan_files (Pathlib.Path "/data") ["/data/m4/../../etc/./passwd"%string]
  = Return ["m4/../../etc/passwd"%string].
Proof.
  apply (file_below_root_accepted "/data" "m4/../../etc/./passwd").
  discriminate.
Defined.

(** ** The stored line period as a number *)

Module LinePeriod.

Import Binary64.

Section Values.

Local Open Scope Q_scope.

Lemma close_scaled_by (p : positive) (X Y t : Q) (a b : Z) :
  0 < t -> X == inject_Z a * t -> Y == inject_Z b * t ->
  (Z.abs (a - b) * Zpos p <= Z.abs b)%Z ->
  Qabs (X - Y) <= (1 # p) * Qabs Y.
Proof.
  intros Ht HX HY H. rewrite HX, HY.
  assert (E : inject_Z a * t - inject_Z b * t == inject_Z (a - b) * t).
  { unfold Zminus. rewrite inject_Z_plus, inject_Z_opp. ring. }
  rewrite E, !Qabs_Qmult, !Binary64Facts.Qabs_inject_Z, (Qabs_pos t)
    by (apply Qlt_le_weak; exact Ht).
  rewrite Qmult_assoc. apply Qmult_le_compat_r; [|apply Qlt_le_weak; exact Ht].
  unfold Qle, Qmult, inject_Z. cbn [Qnum Qden]. lia.
Qed.

(** One million times a finite number. *)
Lemma million_times (sg : bool) (m : positive) (e : Z) :
  1000000 * SF2Q (S754_finite sg m e)
  == inject_Z (cond_Zopp sg (Zpos m * Zpos m1e6)%Z) * 2 ^ (e - 33).
Proof.
  unfold SF2Q, Zminus.
  rewrite Qpower_plus by (intros H; discriminate H).
  assert (E : inject_Z (cond_Zopp sg (Zpos m * Zpos m1e6)%Z)
              == inject_Z (cond_Zopp sg (Zpos m)) * inject_Z (Zpos m1e6)).
  { destruct sg; cbn [cond_Zopp];
      rewrite <- ?Z.mul_opp_l, inject_Z_mult; reflexivity. }
  rewrite E.
  assert (E6 : inject_Z (Zpos m1e6) * 2 ^ (- (33)) == 1000000)
    by reflexivity.
  rewrite <- E6. ring.
Qed.

End Values.

(** The product of a number between 1e-300 and 1e300 in magnitude with
    1e6 is finite and within one part in [2 ^ 53] of the exact product. *)
Lemma product_1e6 (s : float) :
  (1e-300 <=? abs s)%float = true -> (abs s <=? 1e300)%float = true ->
  (exists sg m e, Prim2SF (s * 1e6) = S754_finite sg m e)
  /\ (Qabs (F2Q (s * 1e6) - 1000000 * F2Q s)
      <= (1 # 9007199254740992) * Qabs (1000000 * F2Q s))%Q.
Proof.
  intros Hl Hu.
  destruct (Binary64Facts.Prim2SF_in_range s Hl Hu)
    as (sg & m & e & Hs & Hm & He).
  destruct (Binary64Facts.SFmul_1e6 sg m e Hm He)
    as (mu & k & Hk & Hmu & Ha & Hmul).
  assert (Hp : Prim2SF (s * 1e6) = S754_finite sg mu (e - 33 + k)).
  { rewrite mul_spec, Binary64Facts.Prim2SF_1e6, Hs. exact Hmul. }
  split; [eauto|].
  unfold F2Q. rewrite Hp, Hs.
  apply close_scaled_by with (t := (2 ^ (e - 33))%Q)
                             (a := cond_Zopp sg (Zpos mu * 2 ^ k))
                             (b := cond_Zopp sg (Zpos m * Zpos m1e6)).
  - apply Qpower_0_lt. reflexivity.
  - apply Binary64Facts.SF2Q_finite_shift. lia.
  - apply million_times.
  - clear Hmul Hp Hs. unfold m1e6 in *.
    change (2 ^ 53) with 9007199254740992 in *.
    destruct sg; cbn [cond_Zopp]; lia.
Qed.

End LinePeriod.

(** X14. For a line period between 1e-300 and 1e300 seconds in magnitude
    the stored microseconds are a finite number, within one part in
    [2 ^ 53] of a million times the seconds per line, both taken as
    rationals. *)
Theorem usecs_per_line_accuracy (key : Key) (scan : Scanreader.Scan)
    (hdr : ScanInfo_row) :
  header_row key scan = Return hdr ->
  (1e-300 <=? abs (Scanreader.seconds_per_line scan))%float = true ->
  (abs (Scanreader.seconds_per_line scan) <=? 1e300)%float = true ->
  (exists sg m e, Prim2SF (usecs_per_line hdr) = S754_finite sg m e)
  /\ (Qabs (Binary64.F2Q (usecs_per_line hdr)
            - 1000000 * Binary64.F2Q (Scanreader.seconds_per_line scan))
      <= (1 # 9007199254740992)
         * Qabs (1000000 * Binary64.F2Q (Scanreader.seconds_per_line scan)))%Q.
Proof.
  intros Hh Hl Hu. apply header_row_inv in Hh.
  destruct Hh as (x0 & y0 & _ & _ & ->). cbn [usecs_per_line].
  now apply LinePeriod.product_1e6.
Qed.

Lemma usecs_per_line_accuracy_witness :
  exists hdr,
    header_row (sample_key 1) plane_scan = Return hdr
    /\ (exists sg m e, Prim2SF (usecs_per_line hdr) = S754_finite sg m e)
    /\ (Qabs (Binary64.F2Q (usecs_per_line hdr)
              - 1000000 * Binary64.F2Q 0.0000625)
        <= (1 # 9007199254740992)
           * Qabs (1000000 * Binary64.F2Q 0.0000625))%Q.
Proof.
  eexists. split; [reflexivity|].
  apply (usecs_per_line_accuracy (sample_key 1) plane_scan); reflexivity.
Defined.

(** ** [activate] and the linking module *)

Section Activation.

Variable Schema : Type.
Variable import_module : string -> Element.result LinkingModule.linking.
Variable schema_activate :
  string -> bool -> bool -> LinkingModule.linking -> Schema ->
  Schema * Element.result unit.

(** What [activate] does with a module, given or imported. *)
Lemma activate_module (scan_schema_name : string)
    (create_schema create_tables : bool) (linking_module : Element.object)
    (m : LinkingModule.linking) (g : Element.Globals Schema) :
  linking_module = Element.PyModule m
  \/ (exists name, linking_module = Element.PyStr name
                   /\ import_module name = Element.Ok m) ->
  Element.activate Schema import_module schema_activate scan_schema_name
    create_schema create_tables linking_module g
  = (Element.mkGlobals (Some m)
       (fst (schema_activate scan_schema_name create_schema create_tables m
               (Element.schema g))),
     snd (schema_activate scan_schema_name create_schema create_tables m
            (Element.schema g))).
Proof.
  intros [->|(name & -> & Hi)]; unfold Element.activate; rewrite ?Hi;
    destruct (schema_activate _ _ _ _ _); reflexivity.
Qed.

End Activation.

(** X15. [activate] with a linking module that is neither a module nor
    the name of a module that can be imported fails and leaves the globals
    as they were, the linking module of an earlier activation included;
    unless the argument is a string, the failure is the assertion's. *)
Theorem activate_rejected_keeps_globals (Schema : Type)
    (import_module : string -> Element.result LinkingModule.linking)
    (schema_activate :
       string -> bool -> bool -> LinkingModule.linking -> Schema ->
       Schema * Element.result unit)
    (scan_schema_name : string) (create_schema create_tables : bool)
    (linking_module : Element.object) (g : Element.Globals Schema) :
  (forall m, linking_module <> Element.PyModule m) ->
  (forall name m, linking_module = Element.PyStr name ->
                  import_module name <> Element.Ok m) ->
  exists e,
    Element.activate Schema import_module schema_activate scan_schema_name
      create_schema create_tables linking_module g = (g, Element.Err e)
    /\ ((forall name, linking_module <> Element.PyStr name) ->
        exists msg, e = Element.AssertionError msg).
Proof.
  intros Hm Hi. unfold Element.activate.
  destruct linking_module as [|name|m|repr].
  - eexists. split; [reflexivity|]. eauto.
  - destruct (import_module name) as [m|e] eqn:E.
    + now elim (Hi name m eq_refl).
    + exists e. split; [reflexivity|]. intros H. now elim (H name).
  - now elim (Hm m).
  - eexists. split; [reflexivity|]. eauto.
Qed.

(** X16. [activate] with a module, or with the name of one that is
    imported, makes it the linking module before the schema is activated:
    it replaces the one of an earlier activation and stays even when
    [schema.activate] raises. From then on [get_root_data_dir] and
    [get_scan_image_files] answer with the functions of this module, or
    with [AttributeError] for one it lacks. *)
Theorem activate_sets_linking_module (Schema : Type)
    (import_module : string -> Element.result LinkingModule.linking)
    (schema_activate :
       string -> bool -> bool -> LinkingModule.linking -> Schema ->
       Schema * Element.result unit)
    (scan_schema_name : string) (create_schema create_tables : bool)
    (linking_module : Element.object) (m : LinkingModule.linking)
    (g : Element.Globals Schema) :
  linking_module = Element.PyModule m
  \/ (exists name, linking_module = Element.PyStr name
                   /\ import_module name = Element.Ok m) ->
  let run := Element.activate Schema import_module schema_activate
               scan_schema_name create_schema create_tables
               linking_module g in
  Element._linking_module (fst run) = Some m
  /\ snd run
     = snd (schema_activate scan_schema_name create_schema create_tables m
              (Element.schema g))
  /\ Element.get_root_data_dir (fst run)
     = match LinkingModule.get_root_data_dir m with
       | Some d => Element.Ok d
       | None => Element.Err
                   (Element.AttributeError "module" "get_root_data_dir")
       end
  /\ forall scan_key,
       Element.get_scan_image_files (fst run) scan_key
       = match LinkingModule.get_scan_image_files m with
         | Some f => Element.Ok (f scan_key)
         | None => Element.Err
                     (Element.AttributeError "module" "get_scan_image_files")
         end.
Proof.
  intros H run. subst run.
  rewrite (activate_module Schema import_module schema_activate
             scan_schema_name create_schema create_tables linking_module m g H).
  repeat split.
Qed.

(** ** [make] in the module *)

(** X17. When the files of the scan cannot be asked for, because no
    activation has set a linking module or because the module has no
    [get_scan_image_files], [make] raises [AttributeError] at its first
    statement and inserts nothing. *)
Theorem make_without_files_function (Schema : Type)
    (read_scan : list string -> outcome Scanreader.Scan)
    (g : Element.Globals Schema) (key : Key) (db : DB) :
  Element._linking_module g = None
  \/ (exists m, Element._linking_module g = Some m
                /\ LinkingModule.get_scan_image_files m = None) ->
  exists obj,
    Element.make read_scan g key db
    = (db, Element.Err (Element.AttributeError obj "get_scan_image_files")).
Proof.
  unfold Element.make, Element.bindR, Element.evalR,
    Element.get_scan_image_files.
  intros [H|(m & H & Hf)]; rewrite H; [|rewrite Hf]; eexists; reflexivity.
Qed.

(** X18. With a linking module that has both functions, [make] in the
    module is [make] on the root and the files that the module gives: the
    same rows are inserted and the same exception, if any, is raised. *)
Theorem make_with_linking_module (Schema : Type)
    (read_scan : list string -> outcome Scanreader.Scan)
    (g : Element.Globals Schema) (m : LinkingModule.linking)
    (dir : string) (files : Key -> list string) (key : Key) (db : DB) :
  Element._linking_module g = Some m ->
  LinkingModule.get_root_data_dir m = Some dir ->
  LinkingModule.get_scan_image_files m = Some files ->
  Element.make read_scan g key db
  = Element.lift (make dir files read_scan key) db.
Proof.
  intros Hg Hd Hf.
  unfold Element.make, Element.bindR, Element.evalR, Element.lift,
    Element.get_scan_image_files, Element.get_root_data_dir,
    make, bindM, eval, insert1, Field_insert, ScanFile_insert.
  rewrite Hg, Hd, Hf.
  destruct (read_scan (files key)) as [scan|]; simpl; [|reflexivity].
  destruct (header_row key scan) as [hdr|]; simpl; [|reflexivity].
  destruct (field_rows key scan) as [rows|]; simpl; [|reflexivity].
  destruct (scan_files _ _) as [fs|]; reflexivity.
Qed.

(** X19. With a linking module that gives the files but has no
    [get_root_data_dir], [make] raises [AttributeError] only after the
    header row and the field rows are inserted, and inserts no file row. *)
Theorem make_without_root_data_dir (Schema : Type)
    (read_scan : list string -> outcome Scanreader.Scan)
    (g : Element.Globals Schema) (m : LinkingModule.linking)
    (files : Key -> list string) (key : Key) (db : DB)
    (scan : Scanreader.Scan) (hdr : ScanInfo_row) (rows : list Field_row) :
  Element._linking_module g = Some m ->
  LinkingModule.get_root_data_dir m = None ->
  LinkingModule.get_scan_image_files m = Some files ->
  read_scan (files key) = Return scan ->
  header_row key scan = Return hdr ->
  field_rows key scan = Return rows ->
  Element.make read_scan g key db
  = (mkDB (ScanInfo db ++ [hdr]) (Field db ++ rows) (ScanFile db),
     Element.Err (Element.AttributeError "module" "get_root_data_dir")).
Proof.
  intros Hg Hd Hf Hs Hh Hr.
  unfold Element.make, Element.bindR, Element.evalR, Element.lift,
    Element.get_scan_image_files, Element.get_root_data_dir,
    insert1, Field_insert.
  rewrite Hg, Hd, Hf, Hs. simpl. rewrite Hh. simpl. rewrite Hr. reflexivity.
Qed.

(** ** The attributes that each mode reads *)

Lemma make_of_stages
    (get_root_data_dir : string) (get_scan_image_files : Key -> list string)
    (read_scan read_scan' : list string -> outcome Scanreader.Scan)
    (key : Key) (db : DB) (scan scan' : Scanreader.Scan) :
  read_scan (get_scan_image_files key) = Return scan ->
  read_scan' (get_scan_image_files key) = Return scan' ->
  header_row key scan' = header_row key scan ->
  field_rows key scan' = field_rows key scan ->
  make get_root_data_dir get_scan_image_files read_scan' key db
  = make get_root_data_dir get_scan_image_files read_scan key db.
Proof.
  intros Hs Hs' Hh Hr. unfold make, bindM, eval.
  rewrite Hs, Hs', Hh, Hr. reflexivity.
Qed.

(** X20. For a scan that is not multi-ROI, [make] reads none of the
    attributes that only a multi-ROI scan has: with the ROI count, the
    per-field lists, the fields and the angle conversion taken away, it
    runs as before. *)
Theorem make_single_plane_reads
    (get_root_data_dir : string) (get_scan_image_files : Key -> list string)
    (read_scan : list string -> outcome Scanreader.Scan)
    (key : Key) (db : DB) (scan : Scanreader.Scan) :
  read_scan (get_scan_image_files key) = Return scan ->
  Scanreader.is_multiROI scan = false ->
  make get_root_data_dir get_scan_image_files
    (fun _ => Return (without_roi_attributes scan)) key db
  = make get_root_data_dir get_scan_image_files read_scan key db.
Proof.
  intros Hs Hm. apply make_of_stages with (scan := scan)
                                          (scan' := without_roi_attributes scan);
    try reflexivity; try exact Hs.
  - unfold header_row. simpl. now rewrite Hm.
  - unfold field_rows. simpl. now rewrite Hm.
Qed.

(** X21. For a multi-ROI scan, [make] reads none of the attributes that
    only a single-plane scan has: with the image height and width, in
    pixels and in microns, and the scanning depths taken away, it runs as
    before. *)
Theorem make_multi_roi_reads
    (get_root_data_dir : string) (get_scan_image_files : Key -> list string)
    (read_scan : list string -> outcome Scanreader.Scan)
    (key : Key) (db : DB) (scan : Scanreader.Scan) :
  read_scan (get_scan_image_files key) = Return scan ->
  Scanreader.is_multiROI scan = true ->
  make get_root_data_dir get_scan_image_files
    (fun _ => Return (without_plane_attributes scan)) key db
  = make get_root_data_dir get_scan_image_files read_scan key db.
Proof.
  intros Hs Hm. apply make_of_stages with (scan := scan)
                                          (scan' := without_plane_attributes scan);
    try reflexivity; try exact Hs.
  unfold field_rows. simpl. now rewrite Hm.
Qed.

(** ** The further properties on the samples *)

Lemma make_short_list_witness :
  exists hdr,
    header_row (sample_key 1) (with_counts 3 1 roi_scan) = Return hdr
    /\ make sample_root sample_files
         (fun _ => Return (with_counts 3 1 roi_scan)) (sample_key 1) empty_db
       = (mkDB ([] ++ [hdr]) [] [], Raise IndexError).
Proof.
  apply (make_short_list sample_root sample_files
           (fun _ => Return (with_counts 3 1 roi_scan)) (sample_key 1)
           empty_db (with_counts 3 1 roi_scan) 10 20 100); reflexivity.
Defined.

Lemma make_motor_position_witness :
  exists hdr,
    header_row (sample_key 1) (with_motor [10; 20]%float plane_scan)
    = Return hdr
    /\ make sample_root sample_files
         (fun _ => Return (with_motor [10; 20]%float plane_scan))
         (sample_key 1) empty_db
       = (mkDB ([] ++ [hdr]) [] [], Raise (UnpackError 3 2)).
Proof.
  apply (make_motor_position sample_root sample_files
           (fun _ => Return (with_motor [10; 20]%float plane_scan))
           (sample_key 1) empty_db
           (with_motor [10; 20]%float plane_scan) eq_refl).
  left. reflexivity.
Defined.

Lemma make_row_counts_witness :
  let db' := fst (make sample_root sample_files (fun _ => Return plane_scan)
                    (sample_key 1) empty_db) in
  List.length (ScanInfo db') = 1%nat
  /\ List.length (Field db') = (0 + Z.to_nat 3)%nat
  /\ List.length (ScanFile db') = (0 + 2)%nat.
Proof.
  apply (make_row_counts sample_root sample_files (fun _ => Return plane_scan)
           (sample_key 1) empty_db _ plane_scan); reflexivity.
Defined.

Lemma roi_field_pixels_witness :
  exists rows r,
    field_rows (sample_key 1) roi_scan = Return rows
    /\ nth_error rows (Z.to_nat 1) = Some r
    /\ nth_error (Scanreader.field_heights roi_scan) (Z.to_nat 1)
       = Some (px_height r)
    /\ nth_error (Scanreader.field_widths roi_scan) (Z.to_nat 1)
       = Some (px_width r)
    /\ nth_error (Scanreader.field_offsets roi_scan) (Z.to_nat 1)
       = Some (delay_image r).
Proof.
  eexists.
  destruct (roi_field_pixels (sample_key 1) roi_scan _ 1 eq_refl eq_refl
              ltac:(simpl; lia)) as (r & H).
  exists r. split; [reflexivity|exact H].
Defined.

Lemma plane_field_pixels_witness :
  exists rows,
    field_rows (sample_key 1) plane_scan = Return rows
    /\ forall r, In r rows ->
         px_height r = 2 /\ px_width r = 2
         /\ um_height r = None /\ um_width r = None.
Proof.
  eexists. split; [reflexivity|].
  apply (plane_field_pixels (sample_key 1) plane_scan); reflexivity.
Defined.

Lemma stored_paths_relative_witness :
  Forall (fun rel =>
            Pathlib.root (Pathlib.Path rel) = ""%string
            /\ Pathlib.as_posix (Pathlib.Path rel) = rel
            /\ String.get 0 rel <> Some Pathlib.sep)
         ["m4/scan1_00001.tif"; "m4/scan1_00002.tif"]%string.
Proof.
  apply (stored_paths_relative (Pathlib.Path sample_root)
           (sample_files (sample_key 1))).
  reflexivity.
Defined.

Lemma stored_paths_distinct_witness :
  NoDup ["m4/scan1_00001.tif"; "m4/scan1_00002.tif"]%string.
Proof.
  apply (stored_paths_distinct sample_root (sample_files (sample_key 1))).
  - reflexivity.
  - repeat constructor; simpl; intuition discriminate.
Defined.

Lemma activate_rejected_keeps_globals_witness :
  exists e,
    Element.activate (list string) sample_import sample_schema_activate
      "scan" true true Element.PyNone fresh_globals
    = (fresh_globals, Element.Err e)
    /\ ((forall name, Element.PyNone <> Element.PyStr name) ->
        exists msg, e = Element.AssertionError msg).
Proof.
  apply (activate_rejected_keeps_globals (list string) sample_import
           sample_schema_activate "scan" true true Element.PyNone
           fresh_globals); discriminate.
Defined.

Lemma activate_sets_linking_module_witness :
  let run := Element.activate (list string) sample_import
               sample_schema_activate "scan" true true
               (Element.PyStr "my_pipeline") fresh_globals in
  Element._linking_module (fst run) = Some sample_linking
  /\ snd run = Element.Ok tt
  /\ Element.get_root_data_dir (fst run) = Element.Ok sample_root
  /\ forall scan_key,
       Element.get_scan_image_files (fst run) scan_key
       = Element.Ok (sample_files scan_key).
Proof.
  apply (activate_sets_linking_module (list string) sample_import
           sample_schema_activate "scan" true true
           (Element.PyStr "my_pipeline") sample_linking fresh_globals).
  right. exists "my_pipeline"%string. split; reflexivity.
Defined.

Lemma make_without_files_function_witness :
  exists obj,
    Element.make (fun _ => Return plane_scan) fresh_globals (sample_key 1)
      empty_db
    = (empty_db,
       Element.Err (Element.AttributeError obj "get_scan_image_files")).
Proof.
  apply (make_without_files_function (list string)
           (fun _ => Return plane_scan) fresh_globals (sample_key 1) empty_db).
  left. reflexivity.
Defined.

Lemma make_with_linking_module_witness :
  Element.make (fun _ => Return plane_scan)
    (Element.mkGlobals (Some sample_linking) ["scan"%string])
    (sample_key 1) empty_db
  = Element.lift (make sample_root sample_files (fun _ => Return plane_scan)
                    (sample_key 1)) empty_db.
Proof.
  apply (make_with_linking_module (list string) (fun _ => Return plane_scan)
           (Element.mkGlobals (Some sample_linking) ["scan"%string])
           sample_linking sample_root sample_files (sample_key 1) empty_db);
    reflexivity.
Defined.

Lemma make_without_root_data_dir_witness :
  exists hdr rows,
    header_row (sample_key 1) plane_scan = Return hdr
    /\ field_rows (sample_key 1) plane_scan = Return rows
    /\ Element.make (fun _ => Return plane_scan)
         (Element.mkGlobals (Some rootless_linking) ["scan"%string])
         (sample_key 1) empty_db
       = (mkDB ([] ++ [hdr]) ([] ++ rows) [],
          Element.Err (Element.AttributeError "module" "get_root_data_dir")).
Proof.
  eexists. eexists. split; [reflexivity|]. split; [reflexivity|].
  apply (make_without_root_data_dir (list string)
           (fun _ => Return plane_scan)
           (Element.mkGlobals (Some rootless_linking) ["scan"%string])
           rootless_linking sample_files (sample_key 1) empty_db plane_scan);
    reflexivity.
Defined.

Lemma make_single_plane_reads_witness :
  make sample_root sample_files
    (fun _ => Return (without_roi_attributes plane_scan)) (sample_key 1)
    empty_db
  = make sample_root sample_files (fun _ => Return plane_scan) (sample_key 1)
      empty_db.
Proof.
  apply (make_single_plane_reads sample_root sample_files
           (fun _ => Return plane_scan) (sample_key 1) empty_db plane_scan);
    reflexivity.
Defined.

Lemma make_multi_roi_reads_witness :
  make sample_root sample_files
    (fun _ => Return (without_plane_attributes roi_scan)) (sample_key 1)
    empty_db
  = make sample_root sample_files (fun _ => Return roi_scan) (sample_key 1)
      empty_db.
Proof.
  apply (make_multi_roi_reads sample_root sample_files
           (fun _ => Return roi_scan) (sample_key 1) empty_db roi_scan);
    reflexivity.
Defined.

Lemma make_fails_before_insert_witness :
  make sample_root sample_files (fun _ => Raise (ReadError "no header"))
    (sample_key 1) empty_db
  = (empty_db, Raise (ReadError "no header")).
Proof.
  apply (make_fails_before_insert sample_root sample_files
           (fun _ => Raise (ReadError "no header")) (sample_key 1) empty_db).
  left. reflexivity.
Defined.

Lemma make_returns_only_if_witness :
  exists scan,
    Return plane_scan = Return scan
    /\ scan_ok scan = true
    /\ Forall (fun f => exists r,
                   Pathlib.relative_to (Pathlib.Path f)
                     (Pathlib.Path sample_root) = Return r)
              (sample_files (sample_key 1)).
Proof.
  apply (make_returns_only_if sample_root sample_files
           (fun _ => Return plane_scan) (sample_key 1) empty_db).
  reflexivity.
Defined.
